(** * Task manager views: a shallow embedding of [app/views/tasks.py]

    The request handlers of the task tracker are modelled as computations
    over the relational store (the [Team], [Task] and [Comment] tables and
    the per-session message storage).  A handler either returns an HTTP
    response or raises an exception; in both cases it hands back the store,
    since nothing in the handlers rolls a request back. *)

From stdpp Require Import gmap strings list fin_maps.

Open Scope string_scope.
Open Scope list_scope.

(** ** Python values *)

(** A Python [str] is a sequence of Unicode code points. *)
Abbreviation pystr := (list N).

Fixpoint str (s : string) : pystr :=
  match s with
  | EmptyString => []
  | String a s' => Ascii.N_of_ascii a :: str s'
  end.

Arguments str : simpl never.

(** [str.isspace] on one code point: the table of CPython's
    [_PyUnicode_IsWhitespace]. *)
Definition isspace (c : N) : bool :=
  ((9 <=? c) && (c <=? 13) || (28 <=? c) && (c <=? 32)
   || (c =? 133) || (c =? 160) || (c =? 5760)
   || (8192 <=? c) && (c <=? 8202)
   || (c =? 8232) || (c =? 8233) || (c =? 8239) || (c =? 8287)
   || (c =? 12288))%N.

Fixpoint lstrip (s : pystr) : pystr :=
  match s with
  | [] => []
  | c :: s' => if isspace c then lstrip s' else s
  end.

Definition rstrip (s : pystr) : pystr := reverse (lstrip (reverse s)).

(** [s.strip()] with no argument. *)
Definition strip (s : pystr) : pystr := rstrip (lstrip s).

(** Truth value of a [str]: non-empty. *)
Definition truthy (s : pystr) : bool :=
  match s with [] => false | _ :: _ => true end.

(** A date, as its proleptic ordinal. *)
Abbreviation date := N.

(** ** The relational schema *)

(** Users are the framework's; a user is identified by primary key, which is
    what model equality and queryset membership compare. *)
Abbreviation User := nat.

Record Team := mkTeam {
  leader : User;
  members : gset User
}.

Record Task := mkTask {
  title : pystr;
  creator : option User;
  team_id : option nat;
  assigned_to : gset User;
  status : pystr;
  accepted_date : option date;
  accepted_by : option User;
  completed_date : option date
}.

Record Comment := mkComment {
  author : User;
  comment_task_id : nat;
  body : pystr
}.

#[global] Instance Team_eq_dec : EqDecision Team.
Proof. solve_decision. Defined.
#[global] Instance Task_eq_dec : EqDecision Task.
Proof. solve_decision. Defined.
#[global] Instance Comment_eq_dec : EqDecision Comment.
Proof. solve_decision. Defined.

Inductive Level := SUCCESS | ERROR.

Record State := mkState {
  Team_objects : gmap nat Team;
  Task_objects : gmap nat Task;
  Comment_objects : gmap nat Comment;
  messages : list (Level * pystr)
}.

Definition set_Task_objects (f : gmap nat Task → gmap nat Task) (st : State) : State :=
  {| Team_objects := Team_objects st;
     Task_objects := f (Task_objects st);
     Comment_objects := Comment_objects st;
     messages := messages st |}.

Definition set_Comment_objects (f : gmap nat Comment → gmap nat Comment) (st : State) : State :=
  {| Team_objects := Team_objects st;
     Task_objects := Task_objects st;
     Comment_objects := f (Comment_objects st);
     messages := messages st |}.

Definition set_messages (f : list (Level * pystr) → list (Level * pystr)) (st : State) : State :=
  {| Team_objects := Team_objects st;
     Task_objects := Task_objects st;
     Comment_objects := Comment_objects st;
     messages := f (messages st) |}.

(** ** Requests and responses *)

Inductive Method := GET | POST | HEAD | PUT | PATCH | DELETE | OPTIONS.

#[global] Instance Method_eq_dec : EqDecision Method.
Proof. solve_decision. Defined.

(** A [QueryDict] maps a key to the values submitted for it, which are at
    least one: the earlier values and, apart, the last. *)
Abbreviation QueryDict := (gmap string (list pystr * pystr)).

(** [user] is [None] for the anonymous user. *)
Record Request := mkRequest {
  method : Method;
  user : option User;
  POST_data : QueryDict
}.

Inductive Location := to_task (id : nat) | to_index | to_login.

(** The two model forms, with the arguments their constructors are given in
    the views: the submitted data when the form is bound, the instance being
    edited, and the [initial] dictionary's entries. *)
Inductive Form :=
| TaskCreationForm (data : option QueryDict) (teams : list (nat * Team))
| TaskEditForm (data : option QueryDict) (instance : nat * Task)
    (members : option (gset User)) (has_team : bool) (teams : list (nat * Team)).

Inductive ContextValue :=
| CUser (u : User)
| CBool (b : bool)
| CForm (f : Form)
| CTeams (l : list (nat * Team))
| CTask (id : nat) (t : Task)
| CTasks (l : list (nat * Task)).

Inductive HttpResponse :=
| render (template : string) (context : list (string * ContextValue))
| redirect (to : Location)
| HttpResponseNotAllowed (permitted : list Method).

Inductive Exception :=
| PermissionDenied
| Http404
| AttributeError
| MultiValueDictKeyError
| DoesNotExist.

(** ** Handlers as computations over the store *)

Inductive outcome (A : Type) :=
| Return (a : A)
| Raise (e : Exception).
Arguments Return {A} a.
Arguments Raise {A} e.

Definition View (A : Type) : Type := State → outcome A * State.

#[global] Instance View_ret : MRet View := λ A a st, (Return a, st).
#[global] Instance View_bind : MBind View := λ A B k m st,
  match m st with
  | (Return a, st') => k a st'
  | (Raise e, st') => (Raise e, st')
  end.

Definition raise {A} (e : Exception) : View A := λ st, (Raise e, st).
Definition get_state : View State := λ st, (Return st, st).
Definition modify_state (f : State → State) : View unit := λ st, (Return tt, f st).

(** *** The object-relational layer *)

(** [get_object_or_404(Task, id=task_id)], for a [task_id] that the
    database can hold as a key (see [pk_in_range]); what the database adapter
    does with a larger number from the URL is not part of this model. *)
Definition get_object_or_404 (task_id : nat) : View Task := λ st,
  match Task_objects st !! task_id with
  | Some task => (Return task, st)
  | None => (Raise Http404, st)
  end.

(** [task.team]: [None] when the foreign key is null, the referenced row
    otherwise; a key without its row raises [DoesNotExist]. *)
Definition Task_team (task : Task) : View (option Team) := λ st,
  match team_id task with
  | None => (Return None, st)
  | Some k =>
      match Team_objects st !! k with
      | Some tm => (Return (Some tm), st)
      | None => (Raise DoesNotExist, st)
      end
  end.

(** [Team.objects.filter(leader=u)]. *)
Definition Team_filter_leader (u : User) : View (list (nat * Team)) := λ st,
  (Return (filter (λ kt, leader kt.2 = u) (map_to_list (Team_objects st))), st).

(** [task.save()] for a row that has its primary key. *)
Definition Task_save (task_id : nat) (task : Task) : View unit :=
  modify_state (set_Task_objects (insert task_id task)).

(** [task.save()] for a new instance: the row is inserted under a primary
    key no row has, and the key is returned. *)
Definition Task_insert (task : Task) : View nat := λ st,
  let k := fresh (dom (Task_objects st)) in
  (Return k, set_Task_objects (insert k task) st).

(** [task.assigned_to.add(u)]. *)
Definition Task_assigned_to_add (task_id : nat) (u : User) : View unit :=
  modify_state (set_Task_objects
    (alter (λ t, {| title := title t; creator := creator t; team_id := team_id t;
                    assigned_to := {[u]} ∪ assigned_to t; status := status t;
                    accepted_date := accepted_date t; accepted_by := accepted_by t;
                    completed_date := completed_date t |}) task_id)).

(** [task.delete()]: the row goes, and with it the comments that refer to
    it ([app.models] is not in the source tree; a comment "belongs to one
    Task", and the cascade is the deletion rule assumed for that reference). *)
Definition Task_delete (task_id : nat) : View unit :=
  modify_state (λ st,
    set_Comment_objects (filter (λ kc, comment_task_id kc.2 ≠ task_id))
      (set_Task_objects (delete task_id) st)).

(** [comment.save()] for a new comment. *)
Definition Comment_insert (c : Comment) : View nat := λ st,
  let k := fresh (dom (Comment_objects st)) in
  (Return k, set_Comment_objects (insert k c) st).

Definition messages_success (text : pystr) : View unit :=
  modify_state (set_messages (λ l, l ++ [(SUCCESS, text)])).

Definition messages_error (text : pystr) : View unit :=
  modify_state (set_messages (λ l, l ++ [(ERROR, text)])).

(** [q.get(key)]: the last value submitted for [key], [None] without one. *)
Definition QueryDict_get (q : QueryDict) (key : string) : option pystr :=
  snd <$> q !! key.

(** [q[key]]: the last value, or [MultiValueDictKeyError]. *)
Definition QueryDict_getitem (q : QueryDict) (key : string) : View pystr :=
  match q !! key with
  | Some v => mret v.2
  | None => raise MultiValueDictKeyError
  end.

(** *** Decorators *)

(** [@login_required]: the anonymous user is sent to the login page; the
    view is run for an authenticated one. *)
Definition login_required (view : User → Request → View HttpResponse)
    (request : Request) : View HttpResponse :=
  match user request with
  | Some u => view u request
  | None => mret (redirect to_login)
  end.

(** [@require_http_methods(permitted)]. *)
Definition require_http_methods (permitted : list Method)
    (view : Request → View HttpResponse) (request : Request) : View HttpResponse :=
  if decide (method request ∈ permitted) then view request
  else mret (HttpResponseNotAllowed permitted).

(** *** Field assignments on a task instance *)

Definition set_creator (v : option User) (t : Task) : Task :=
  {| title := title t; creator := v; team_id := team_id t;
     assigned_to := assigned_to t; status := status t;
     accepted_date := accepted_date t; accepted_by := accepted_by t;
     completed_date := completed_date t |}.

Definition set_status (v : pystr) (t : Task) : Task :=
  {| title := title t; creator := creator t; team_id := team_id t;
     assigned_to := assigned_to t; status := v;
     accepted_date := accepted_date t; accepted_by := accepted_by t;
     completed_date := completed_date t |}.

Definition set_accepted_date (v : option date) (t : Task) : Task :=
  {| title := title t; creator := creator t; team_id := team_id t;
     assigned_to := assigned_to t; status := status t;
     accepted_date := v; accepted_by := accepted_by t;
     completed_date := completed_date t |}.

Definition set_accepted_by (v : option User) (t : Task) : Task :=
  {| title := title t; creator := creator t; team_id := team_id t;
     assigned_to := assigned_to t; status := status t;
     accepted_date := accepted_date t; accepted_by := v;
     completed_date := completed_date t |}.

Definition set_completed_date (v : option date) (t : Task) : Task :=
  {| title := title t; creator := creator t; team_id := team_id t;
     assigned_to := assigned_to t; status := status t;
     accepted_date := accepted_date t; accepted_by := accepted_by t;
     completed_date := v |}.

Definition set_assigned_to (v : gset User) (t : Task) : Task :=
  {| title := title t; creator := creator t; team_id := team_id t;
     assigned_to := v; status := status t;
     accepted_date := accepted_date t; accepted_by := accepted_by t;
     completed_date := completed_date t |}.

(** The keys the database can hold: a signed 64-bit integer. *)
Definition pk_in_range (task_id : nat) : Prop :=
  (Z.of_nat task_id ≤ 9223372036854775807)%Z.

(** Modelled from the spec: [app.models.Task] and
    [app.forms.TaskCreationForm] are not part of the source tree.  The
    instance that [form.save(commit=False)] hands back is a task "created in
    PLAN", not yet accepted or completed, that has no creator and no assignee
    yet (with [commit=False] no many-to-many data is written); the form fills
    in the title and the optional owning team. *)
Definition TaskCreationForm_save_uncommitted (cleaned : pystr * option nat) : Task :=
  {| title := cleaned.1; creator := None; team_id := cleaned.2;
     assigned_to := ∅; status := str "PLAN";
     accepted_date := None; accepted_by := None; completed_date := None |}.

(** *** Querysets of the list views *)

(** [Task] LEFT OUTER JOIN its [assigned_to] table: one row per assignee of
    a task, and one row without an assignee for a task that has none. *)
Definition Task_join_assigned_to (st : State) : list (nat * Task * option User) :=
  map_to_list (Task_objects st) ≫= λ kt,
    match elements (assigned_to kt.2) with
    | [] => [(kt, None)]
    | us => (λ a, (kt, Some a)) <$> us
    end.

(** [Q(creator=u) | Q(assigned_to=u)] on a joined row. *)
Definition Q_creator_or_assigned_to (u : User) (row : nat * Task * option User) : Prop :=
  creator row.1.2 = Some u ∨ row.2 = Some u.

#[global] Instance Q_creator_or_assigned_to_dec u row :
  Decision (Q_creator_or_assigned_to u row).
Proof. unfold Q_creator_or_assigned_to. apply _. Defined.

(** [....exclude(status="COMP").distinct()]. *)
Definition tasks_queryset (u : User) (st : State) : list (nat * Task) :=
  remove_dups (fst <$>
    filter (λ row : nat * Task * option User, status row.1.2 ≠ str "COMP")
      (filter (Q_creator_or_assigned_to u) (Task_join_assigned_to st))).

(** [....filter(status="COMP").distinct()]. *)
Definition completed_tasks_queryset (u : User) (st : State) : list (nat * Task) :=
  remove_dups (fst <$>
    filter (λ row : nat * Task * option User, status row.1.2 = str "COMP")
      (filter (Q_creator_or_assigned_to u) (Task_join_assigned_to st))).

(** *** The permission checks of the detail and comment views *)

(** Lines 144-152 of [tasks.py], in [task_detail]. *)
Definition task_detail_allowed (u : User) (task : Task) : View bool :=
  if decide (Some u = creator task ∨ u ∈ assigned_to task) then mret true
  else
    tm ← Task_team task;
    match tm with
    | Some tm => if decide (u ∈ members tm) then mret true else mret false
    | None => mret false
    end.

(** Lines 211-219 of [tasks.py], in [task_comment]. *)
Definition task_comment_allowed (u : User) (task : Task) : View bool :=
  if decide (Some u = creator task ∨ u ∈ assigned_to task) then mret true
  else
    tm ← Task_team task;
    match tm with
    | Some tm => if decide (u ∈ members tm) then mret true else mret false
    | None => mret false
    end.

(** ** The views *)

Section Views.

(** [app.forms] is not part of the source tree.  What the two forms accept,
    and what they clean the submitted data to, is taken as given; both may
    consult the store.  [edit_cleaned_instance st form] is the task instance
    once [form] has been validated, with the assignees the form carries: a
    model form writes the fields it accepted to its instance while it
    validates, whether or not the form as a whole is valid, and
    [form.save()] stores that instance and its assignees. *)
Variable form_is_valid : State → Form → bool.
Variable creation_cleaned_data : State → Form → pystr * option nat.
Variable edit_cleaned_instance : State → Form → Task.

(** [datetime.date.today()] at the time of the request. *)
Variable today : date.

Definition task_create : Request → View HttpResponse :=
  login_required (λ u, require_http_methods [GET; POST] (λ request,
    teams ← Team_filter_leader u;
    if decide (method request = POST) then
      let form := TaskCreationForm (Some (POST_data request)) teams in
      st ← get_state;
      if form_is_valid st form then
        let new_task :=
          TaskCreationForm_save_uncommitted (creation_cleaned_data st form) in
        let new_task := set_creator (Some u) new_task in
        k ← Task_insert new_task;
        _ ← Task_assigned_to_add k u;
        _ ← messages_success
              (str "Task: `" ++ title new_task ++ str "` is created successfully!");
        mret (redirect (to_task k))
      else
        mret (render "app/task_create-edit.html"
                [("user", CUser u); ("form", CForm form); ("creation", CBool true)])
    else
      let form := TaskCreationForm None teams in
      mret (render "app/task_create-edit.html"
              [("user", CUser u); ("form", CForm form); ("teams", CTeams teams);
               ("creation", CBool true)]))).

Definition task_edit (request : Request) (task_id : nat) : View HttpResponse :=
  login_required (λ u, require_http_methods [GET; POST] (λ request,
    task ← get_object_or_404 task_id;
    if decide (Some u = creator task ∧ status task = str "PLAN") then
      teams ← Team_filter_leader u;
      tm ← Task_team task;
      let has_team := match tm with Some _ => true | None => false end in
      let members := members <$> tm in
      if decide (method request = POST) then
        let form :=
          TaskEditForm (Some (POST_data request)) (task_id, task)
            members has_team teams in
        st ← get_state;
        if form_is_valid st form then
          _ ← Task_save task_id (edit_cleaned_instance st form);
          _ ← messages_success (str "The changes are saved successfully!");
          mret (redirect (to_task task_id))
        else
          (* [form.is_valid()] has written the accepted fields to [task] *)
          let task :=
            set_assigned_to (assigned_to task) (edit_cleaned_instance st form) in
          let form :=
            TaskEditForm (Some (POST_data request)) (task_id, task)
              members has_team teams in
          mret (render "app/task_create-edit.html"
                  [("user", CUser u); ("form", CForm form);
                   ("task", CTask task_id task); ("creation", CBool false)])
      else
        let form := TaskEditForm None (task_id, task) members has_team teams in
        mret (render "app/task_create-edit.html"
                [("user", CUser u); ("form", CForm form);
                 ("task", CTask task_id task); ("creation", CBool false)])
    else raise PermissionDenied)) request.

Definition task_delete (request : Request) (task_id : nat) : View HttpResponse :=
  login_required (λ u, require_http_methods [GET] (λ request,
    task ← get_object_or_404 task_id;
    if decide (Some u = creator task ∧ status task = str "PLAN") then
      _ ← Task_delete task_id;
      _ ← messages_success (str "The task is deleted successfully!");
      mret (redirect to_index)
    else raise PermissionDenied)) request.

Definition tasks : Request → View HttpResponse :=
  login_required (λ u, require_http_methods [GET] (λ request,
    st ← get_state;
    let tasks := tasks_queryset u st in
    mret (render "app/tasks.html"
            [("user", CUser u); ("tasks", CTasks tasks); ("completed", CBool false)]))).

Definition completed_tasks : Request → View HttpResponse :=
  login_required (λ u, require_http_methods [GET] (λ request,
    st ← get_state;
    let tasks := completed_tasks_queryset u st in
    mret (render "app/tasks.html"
            [("user", CUser u); ("tasks", CTasks tasks); ("completed", CBool true)]))).

Definition task_detail (request : Request) (task_id : nat) : View HttpResponse :=
  login_required (λ u, require_http_methods [GET] (λ request,
    task ← get_object_or_404 task_id;
    allowed ← task_detail_allowed u task;
    if allowed : bool then
      mret (render "app/task_detail.html"
              [("user", CUser u); ("task", CTask task_id task)])
    else raise PermissionDenied)) request.

Definition task_accept (request : Request) (task_id : nat) : View HttpResponse :=
  login_required (λ u, require_http_methods [GET] (λ request,
    task ← get_object_or_404 task_id;
    if decide (u ∈ assigned_to task) then
      if decide (status task = str "PLAN") then
        let task := set_status (str "PROG") task in
        let task := set_accepted_date (Some today) task in
        let task := set_accepted_by (Some u) task in
        _ ← Task_save task_id task;
        _ ← messages_success (str "The task has marked as In-Progress successfully!");
        mret (redirect (to_task task_id))
      else raise PermissionDenied
    else raise PermissionDenied)) request.

Definition task_mark_completed (request : Request) (task_id : nat)
  : View HttpResponse :=
  login_required (λ u, require_http_methods [GET] (λ request,
    task ← get_object_or_404 task_id;
    if decide (Some u = creator task ∨ u ∈ assigned_to task) then
      if decide (status task = str "PROG") then
        let task := set_status (str "COMP") task in
        let task := set_completed_date (Some today) task in
        _ ← Task_save task_id task;
        _ ← messages_success (str "The task is marked as Completed successfully!");
        mret (redirect (to_task task_id))
      else raise PermissionDenied
    else raise PermissionDenied)) request.

Definition task_comment (request : Request) (task_id : nat) : View HttpResponse :=
  login_required (λ u, require_http_methods [POST] (λ request,
    task ← get_object_or_404 task_id;
    allowed ← task_comment_allowed u task;
    if allowed : bool then
      match QueryDict_get (POST_data request) "comment_body" with
      | None => raise AttributeError
      | Some submitted =>
          if truthy (strip submitted) then
            text ← QueryDict_getitem (POST_data request) "comment_body";
            _ ← Comment_insert
                  {| author := u; comment_task_id := task_id; body := text |};
            _ ← messages_success (str "The comment is added succesfully");
            mret (redirect (to_task task_id))
          else
            _ ← messages_error (str "Missing required fields");
            mret (redirect (to_task task_id))
      end
    else raise PermissionDenied)) request.

End Views.

(** ** The authorization rules, in the words of the specification *)

(** Creator, assignee, or member of the task's team when it has one. *)
Definition may_comment (st : State) (u : User) (task : Task) : Prop :=
  creator task = Some u ∨ u ∈ assigned_to task ∨
  ∃ k tm, team_id task = Some k ∧ Team_objects st !! k = Some tm ∧ u ∈ members tm.

(** Referential integrity of [Task.team]: a task's team key has its row. *)
Definition team_fk_ok (st : State) (task : Task) : Prop :=
  ∀ k, team_id task = Some k → is_Some (Team_objects st !! k).

(** The task handlers that check a permission, the methods each is routed
    for, and the rule each enforces. *)
Inductive Handler :=
| h_edit | h_delete | h_accept | h_mark_completed | h_comment | h_detail.

Definition handler_view form_is_valid edit_cleaned_instance today (h : Handler)
  : Request → nat → View HttpResponse :=
  match h with
  | h_edit => task_edit form_is_valid edit_cleaned_instance
  | h_delete => task_delete
  | h_accept => task_accept today
  | h_mark_completed => task_mark_completed today
  | h_comment => task_comment
  | h_detail => task_detail
  end.

Definition handler_methods (h : Handler) : list Method :=
  match h with
  | h_edit => [GET; POST]
  | h_comment => [POST]
  | _ => [GET]
  end.

Definition authorized (h : Handler) (st : State) (u : User) (task : Task) : Prop :=
  match h with
  | h_edit | h_delete => creator task = Some u ∧ status task = str "PLAN"
  | h_accept => u ∈ assigned_to task ∧ status task = str "PLAN"
  | h_mark_completed =>
      (creator task = Some u ∨ u ∈ assigned_to task) ∧ status task = str "PROG"
  | h_comment | h_detail => may_comment st u task
  end.

(** The response that re-renders a form: a rendered template whose context
    carries the form. *)
Definition rerenders_form (r : outcome HttpResponse) : Prop :=
  ∃ template context f, r = Return (render template context) ∧
    ("form", CForm f) ∈ context.

(** The claim of C8 as the specification words it, refuted below: a blank
    comment creates no row and the form is rendered again. *)
Definition blank_comment_rerenders_form : Prop :=
  ∀ request u task_id task st earlier submitted,
    user request = Some u → method request = POST →
    Task_objects st !! task_id = Some task →
    may_comment st u task →
    POST_data request !! "comment_body" = Some (earlier, submitted) →
    strip submitted = [] →
    Comment_objects (task_comment request task_id st).2 = Comment_objects st
    ∧ rerenders_form (task_comment request task_id st).1.

(** ** A small store to run the views on

    Team 7 is led by user 1 and has user 3 as its member.  Task 5 belongs to
    team 7, was created by user 1, is assigned to user 2 and is planned;
    task 6 is the same task once accepted. *)

Definition demo_task (st : string) : Task :=
  {| title := str "write report"; creator := Some 1; team_id := Some 7;
     assigned_to := {[2]}; status := str st;
     accepted_date := None; accepted_by := None; completed_date := None |}.

Definition demo_store : State :=
  {| Team_objects := {[7 := {| leader := 1; members := {[3]} |}]};
     Task_objects := {[5 := demo_task "PLAN"; 6 := demo_task "PROG"]};
     Comment_objects := ∅;
     messages := [] |}.

Definition demo_request (m : Method) (u : User) (post : QueryDict) : Request :=
  {| method := m; user := Some u; POST_data := post |}.

(** ** The nine views of [tasks.py] together *)

Inductive TaskView :=
| v_task_create | v_task_edit | v_task_delete | v_tasks | v_completed_tasks
| v_task_detail | v_task_accept | v_task_mark_completed | v_task_comment.

(** A view run on a request; [task_id] is the URL argument of the views that
    take one. *)
Definition run_view form_is_valid creation_cleaned_data edit_cleaned_instance today
    (v : TaskView) (request : Request) (task_id : nat) : View HttpResponse :=
  match v with
  | v_task_create => task_create form_is_valid creation_cleaned_data request
  | v_task_edit => task_edit form_is_valid edit_cleaned_instance request task_id
  | v_task_delete => task_delete request task_id
  | v_tasks => tasks request
  | v_completed_tasks => completed_tasks request
  | v_task_detail => task_detail request task_id
  | v_task_accept => task_accept today request task_id
  | v_task_mark_completed => task_mark_completed today request task_id
  | v_task_comment => task_comment request task_id
  end.

(** The argument of each view's [@require_http_methods]. *)
Definition permitted_methods (v : TaskView) : list Method :=
  match v with
  | v_task_create | v_task_edit => [GET; POST]
  | v_task_comment => [POST]
  | _ => [GET]
  end.

(** A computation keeps a relation between the store it starts from and the
    store it ends in. *)
Definition keeps {A} (R : relation State) (m : View A) : Prop :=
  ∀ st, R st (m st).2.

(** The teams are as they were, and the queued messages were only added
    to. *)
Definition teams_kept_messages_grow (st st' : State) : Prop :=
  Team_objects st' = Team_objects st ∧ messages st `prefix_of` messages st'.

(** [task.team] as the store resolves it. *)
Definition Task_team_row (st : State) (task : Task) : option Team :=
  team_id task ≫= λ k, Team_objects st !! k.

(** The [TaskEditForm] that [task_edit] builds for [task] from the submitted
    data (or from none, on GET). *)
Definition edit_form (st : State) (u : User) (task_id : nat) (task : Task)
    (data : option QueryDict) : Form :=
  TaskEditForm data (task_id, task)
    (members <$> Task_team_row st task)
    (match Task_team_row st task with Some _ => true | None => false end)
    (filter (λ kt, leader kt.2 = u) (map_to_list (Team_objects st))).

(** Between two stores, nothing but the row of task [task_id] differs: the
    teams and the comments are the same, the same task keys have rows, and
    every other task row is the same. *)
Definition only_row_may_change (task_id : nat) (st st' : State) : Prop :=
  Team_objects st' = Team_objects st
  ∧ Comment_objects st' = Comment_objects st
  ∧ dom (Task_objects st') = dom (Task_objects st)
  ∧ ∀ j, j ≠ task_id → Task_objects st' !! j = Task_objects st !! j.

(** One step of a task's life, from status [from] to status [to]: the row
    is as it was, or its status went from [from] to [to]; either way title,
    creator, team and assignees stay. *)
Definition lifecycle_step (from to : string) (t t' : Task) : Prop :=
  title t' = title t ∧ creator t' = creator t ∧ team_id t' = team_id t
  ∧ assigned_to t' = assigned_to t
  ∧ (t' = t ∨ (status t = str from ∧ status t' = str to)).

(** What a request to [task_comment] can have done to the store: teams and
    tasks are the same, every comment that was there is there unchanged, and
    a comment that was not there is by the requester, on the task named in
    the URL, which exists. *)
Definition comment_frame (request : Request) (task_id : nat) (st st' : State)
  : Prop :=
  Team_objects st' = Team_objects st
  ∧ Task_objects st' = Task_objects st
  ∧ Comment_objects st ⊆ Comment_objects st'
  ∧ ∀ k c, Comment_objects st' !! k = Some c →
      Comment_objects st !! k = Some c
      ∨ (Comment_objects st !! k = None
         ∧ user request = Some (author c)
         ∧ comment_task_id c = task_id
         ∧ is_Some (Task_objects st !! task_id)).

(** What a request to [task_delete] can have done: the teams and the other
    task rows are the same, no comment was created or altered, and the
    comments on other tasks are all there. *)
Definition delete_frame (task_id : nat) (st st' : State) : Prop :=
  Team_objects st' = Team_objects st
  ∧ (∀ j, j ≠ task_id → Task_objects st' !! j = Task_objects st !! j)
  ∧ Comment_objects st' ⊆ Comment_objects st
  ∧ ∀ k c, Comment_objects st !! k = Some c → comment_task_id c ≠ task_id →
      Comment_objects st' !! k = Some c.

(** What a request to [task_create] can have done: the teams, the comments
    and every task row that was there are the same. *)
Definition create_frame (st st' : State) : Prop :=
  Team_objects st' = Team_objects st
  ∧ Comment_objects st' = Comment_objects st
  ∧ Task_objects st ⊆ Task_objects st'.

(** ** Running a view *)

Lemma bind_run {A B} (m : View A) (k : A → View B) st a st' :
  m st = (Return a, st') → (m ≫= k) st = k a st'.
Proof. intros H. unfold mbind, View_bind. by rewrite H. Qed.

Lemma bind_raise {A B} (m : View A) (k : A → View B) st e st' :
  m st = (Raise e, st') → (m ≫= k) st = (Raise e, st').
Proof. intros H. unfold mbind, View_bind. by rewrite H. Qed.

Lemma get_object_or_404_found task_id task st :
  Task_objects st !! task_id = Some task →
  get_object_or_404 task_id st = (Return task, st).
Proof. intros H. unfold get_object_or_404. by rewrite H. Qed.

Lemma decorated_run permitted body request u :
  user request = Some u → method request ∈ permitted →
  login_required (λ u, require_http_methods permitted (body u)) request
  = body u request.
Proof.
  intros Hu Hm. unfold login_required, require_http_methods.
  rewrite Hu. by rewrite decide_True.
Qed.

Lemma GET_only : GET ∈ [GET].
Proof. set_solver. Qed.

Lemma POST_only : POST ∈ [POST].
Proof. set_solver. Qed.

Lemma task_comment_allowed_true st u task :
  may_comment st u task → task_comment_allowed u task st = (Return true, st).
Proof.
  intros Hmay. unfold task_comment_allowed.
  destruct (decide _) as [Hd | Hd]; [done |].
  destruct Hmay as [Hc | [Ha | (k & tm & Hk & Hrow & Hmem)]]; [naive_solver .. |].
  erewrite bind_run by (unfold Task_team; rewrite Hk, Hrow; reflexivity).
  cbn beta iota. by rewrite decide_True.
Qed.

Lemma task_comment_allowed_false st u task :
  team_fk_ok st task → ¬ may_comment st u task →
  task_comment_allowed u task st = (Return false, st).
Proof.
  intros Hfk Hmay. unfold task_comment_allowed.
  destruct (decide _) as [Hd | Hd]; [unfold may_comment in Hmay; intuition congruence |].
  destruct (team_id task) as [k |] eqn:Hk.
  - destruct (Hfk k Hk) as [tm Hrow]. unfold may_comment in Hmay.
    erewrite bind_run by (unfold Task_team; rewrite Hk, Hrow; reflexivity).
    cbn beta iota. rewrite decide_False; [done | naive_solver].
  - by erewrite bind_run by (unfold Task_team; rewrite Hk; reflexivity).
Qed.

Lemma task_detail_allowed_eq u task :
  task_detail_allowed u task = task_comment_allowed u task.
Proof. reflexivity. Qed.

(** *** What each handler does when its rule fails *)

Lemma task_accept_denied today request u task_id task st :
  user request = Some u → method request = GET →
  Task_objects st !! task_id = Some task →
  ¬ (u ∈ assigned_to task ∧ status task = str "PLAN") →
  task_accept today request task_id st = (Raise PermissionDenied, st).
Proof.
  intros Hu Hm Ht Hn. unfold task_accept.
  rewrite (decorated_run _ _ _ u Hu) by (rewrite Hm; apply GET_only).
  rewrite (bind_run _ _ _ _ _ (get_object_or_404_found _ _ _ Ht)).
  repeat case_decide; try done; exfalso; apply Hn; intuition auto.
Qed.

Lemma task_mark_completed_denied today request u task_id task st :
  user request = Some u → method request = GET →
  Task_objects st !! task_id = Some task →
  ¬ ((creator task = Some u ∨ u ∈ assigned_to task) ∧ status task = str "PROG") →
  task_mark_completed today request task_id st = (Raise PermissionDenied, st).
Proof.
  intros Hu Hm Ht Hn. unfold task_mark_completed.
  rewrite (decorated_run _ _ _ u Hu) by (rewrite Hm; apply GET_only).
  rewrite (bind_run _ _ _ _ _ (get_object_or_404_found _ _ _ Ht)).
  repeat case_decide; try done; exfalso; apply Hn; intuition auto.
Qed.

Lemma task_delete_denied request u task_id task st :
  user request = Some u → method request = GET →
  Task_objects st !! task_id = Some task →
  ¬ (creator task = Some u ∧ status task = str "PLAN") →
  task_delete request task_id st = (Raise PermissionDenied, st).
Proof.
  intros Hu Hm Ht Hn. unfold task_delete.
  rewrite (decorated_run _ _ _ u Hu) by (rewrite Hm; apply GET_only).
  rewrite (bind_run _ _ _ _ _ (get_object_or_404_found _ _ _ Ht)).
  repeat case_decide; try done; exfalso; apply Hn; intuition auto.
Qed.

Lemma task_edit_denied valid cleaned request u task_id task st :
  user request = Some u → method request ∈ [GET; POST] →
  Task_objects st !! task_id = Some task →
  ¬ (creator task = Some u ∧ status task = str "PLAN") →
  task_edit valid cleaned request task_id st = (Raise PermissionDenied, st).
Proof.
  intros Hu Hm Ht Hn. unfold task_edit.
  rewrite (decorated_run _ _ _ u Hu Hm).
  rewrite (bind_run _ _ _ _ _ (get_object_or_404_found _ _ _ Ht)).
  repeat case_decide; try done; exfalso; apply Hn; intuition auto.
Qed.

Lemma task_detail_denied request u task_id task st :
  user request = Some u → method request = GET →
  Task_objects st !! task_id = Some task →
  team_fk_ok st task → ¬ may_comment st u task →
  task_detail request task_id st = (Raise PermissionDenied, st).
Proof.
  intros Hu Hm Ht Hfk Hn. unfold task_detail.
  rewrite (decorated_run _ _ _ u Hu) by (rewrite Hm; apply GET_only).
  rewrite (bind_run _ _ _ _ _ (get_object_or_404_found _ _ _ Ht)).
  rewrite task_detail_allowed_eq.
  by rewrite (bind_run _ _ _ _ _ (task_comment_allowed_false _ _ _ Hfk Hn)).
Qed.

Lemma task_comment_denied request u task_id task st :
  user request = Some u → method request = POST →
  Task_objects st !! task_id = Some task →
  team_fk_ok st task → ¬ may_comment st u task →
  task_comment request task_id st = (Raise PermissionDenied, st).
Proof.
  intros Hu Hm Ht Hfk Hn. unfold task_comment.
  rewrite (decorated_run _ _ _ u Hu) by (rewrite Hm; apply POST_only).
  rewrite (bind_run _ _ _ _ _ (get_object_or_404_found _ _ _ Ht)).
  by rewrite (bind_run _ _ _ _ _ (task_comment_allowed_false _ _ _ Hfk Hn)).
Qed.

(** ** The task lifecycle *)

(** C1. For a task that exists and an authenticated requester, [task_accept]
    succeeds only when the requester is among the task's assignees and the
    status is PLAN.  On success the stored task gets status PROG, today's
    date as [accepted_date] and the requester as [accepted_by], nothing else
    of it changes, and the response redirects to the task: read back from
    the store after the request, the task's row is that one, every other
    task row, the teams and the comments are as before, and one success
    message was added.  In every other case the handler raises
    [PermissionDenied] and the store is the one it started from. *)
Theorem task_accept_spec today request u task_id task st :
  user request = Some u → method request = GET →
  Task_objects st !! task_id = Some task →
  (u ∈ assigned_to task ∧ status task = str "PLAN" →
   task_accept today request task_id st =
     (Return (redirect (to_task task_id)),
      set_messages
        (λ l, l ++ [(SUCCESS, str "The task has marked as In-Progress successfully!")])
        (set_Task_objects
           (insert task_id
              {| title := title task; creator := creator task;
                 team_id := team_id task; assigned_to := assigned_to task;
                 status := str "PROG"; accepted_date := Some today;
                 accepted_by := Some u; completed_date := completed_date task |})
           st))
   ∧ Task_objects (task_accept today request task_id st).2 !! task_id =
       Some {| title := title task; creator := creator task;
               team_id := team_id task; assigned_to := assigned_to task;
               status := str "PROG"; accepted_date := Some today;
               accepted_by := Some u; completed_date := completed_date task |}
   ∧ (∀ j, j ≠ task_id →
        Task_objects (task_accept today request task_id st).2 !! j
        = Task_objects st !! j)
   ∧ Team_objects (task_accept today request task_id st).2 = Team_objects st
   ∧ Comment_objects (task_accept today request task_id st).2 = Comment_objects st
   ∧ messages (task_accept today request task_id st).2 =
       messages st
       ++ [(SUCCESS, str "The task has marked as In-Progress successfully!")])
  ∧ (¬ (u ∈ assigned_to task ∧ status task = str "PLAN") →
     task_accept today request task_id st = (Raise PermissionDenied, st))
  ∧ (∀ r st', task_accept today request task_id st = (Return r, st') →
     u ∈ assigned_to task ∧ status task = str "PLAN").
Proof.
  intros Hu Hm Ht.
  assert (Hden := task_accept_denied today request u task_id task st Hu Hm Ht).
  split; [| split; [exact Hden |]].
  - intros [Ha Hs].
    assert (Hrun : task_accept today request task_id st =
      (Return (redirect (to_task task_id)),
       set_messages
         (λ l, l ++ [(SUCCESS,
                      str "The task has marked as In-Progress successfully!")])
         (set_Task_objects
            (insert task_id
               {| title := title task; creator := creator task;
                  team_id := team_id task; assigned_to := assigned_to task;
                  status := str "PROG"; accepted_date := Some today;
                  accepted_by := Some u; completed_date := completed_date task |})
            st))).
    { unfold task_accept.
      rewrite (decorated_run _ _ _ u Hu) by (rewrite Hm; apply GET_only).
      rewrite (bind_run _ _ _ _ _ (get_object_or_404_found _ _ _ Ht)).
      by rewrite !decide_True. }
    split; [exact Hrun |]. rewrite Hrun. simpl.
    split; [apply lookup_insert_eq |].
    split; [intros j Hj; by apply lookup_insert_ne |]. done.
  - intros r st' Hrun.
    destruct (decide (u ∈ assigned_to task ∧ status task = str "PLAN")) as [|Hn];
      [done |].
    rewrite (Hden Hn) in Hrun. discriminate.
Qed.

Lemma task_accept_spec_witness :
  user (demo_request GET 2 ∅) = Some 2
  ∧ method (demo_request GET 2 ∅) = GET
  ∧ Task_objects demo_store !! 5 = Some (demo_task "PLAN")
  ∧ (task_accept 739000%N (demo_request GET 1 ∅) 5 demo_store
     = (Raise PermissionDenied, demo_store))
  ∧ (fst (task_accept 739000%N (demo_request GET 2 ∅) 5 demo_store)
     = Return (redirect (to_task 5)))
  ∧ Task_objects (task_accept 739000%N (demo_request GET 2 ∅) 5 demo_store).2 !! 5
    = Some {| title := str "write report"; creator := Some 1; team_id := Some 7;
              assigned_to := {[2]}; status := str "PROG";
              accepted_date := Some 739000%N; accepted_by := Some 2;
              completed_date := None |}
  ∧ Task_objects (task_accept 739000%N (demo_request GET 2 ∅) 5 demo_store).2 !! 6
    = Some (demo_task "PROG").
Proof.
  assert (H5 : Task_objects demo_store !! 5 = Some (demo_task "PLAN"))
    by (vm_compute; reflexivity).
  assert (Hpre : 2 ∈ assigned_to (demo_task "PLAN")
                 ∧ status (demo_task "PLAN") = str "PLAN").
  { split; [| reflexivity].
    change (2 ∈ ({[2]} : gset User)). by apply elem_of_singleton. }
  split; [reflexivity |]. split; [reflexivity |]. split; [exact H5 |]. split.
  - apply (task_accept_spec 739000%N (demo_request GET 1 ∅) 1 5 _ demo_store
             eq_refl eq_refl H5).
    intros [Ha _]. change (1 ∈ ({[2]} : gset User)) in Ha.
    apply elem_of_singleton in Ha. discriminate Ha.
  - destruct (task_accept_spec 739000%N (demo_request GET 2 ∅) 2 5 _ demo_store
                eq_refl eq_refl H5) as [Hok _].
    destruct (Hok Hpre) as (Hrun & Hrow & Hothers & _).
    split; [by rewrite Hrun |]. split; [exact Hrow |].
    rewrite (Hothers 6) by discriminate. vm_compute. reflexivity.
Defined.

(** C2. For a task that exists and an authenticated requester,
    [task_mark_completed] succeeds only when the requester is the creator or
    an assignee and the status is PROG.  On success the stored task gets
    status COMP and today's date as [completed_date]: read back from the
    store after the request, the task's row is that one, every other task
    row, the teams and the comments are as before, and one success message
    was added.  In every other case the handler raises [PermissionDenied]
    and the store is unchanged. *)
Theorem task_mark_completed_spec today request u task_id task st :
  user request = Some u → method request = GET →
  Task_objects st !! task_id = Some task →
  ((creator task = Some u ∨ u ∈ assigned_to task) ∧ status task = str "PROG" →
   task_mark_completed today request task_id st =
     (Return (redirect (to_task task_id)),
      set_messages
        (λ l, l ++ [(SUCCESS, str "The task is marked as Completed successfully!")])
        (set_Task_objects
           (insert task_id
              {| title := title task; creator := creator task;
                 team_id := team_id task; assigned_to := assigned_to task;
                 status := str "COMP"; accepted_date := accepted_date task;
                 accepted_by := accepted_by task; completed_date := Some today |})
           st))
   ∧ Task_objects (task_mark_completed today request task_id st).2 !! task_id =
       Some {| title := title task; creator := creator task;
               team_id := team_id task; assigned_to := assigned_to task;
               status := str "COMP"; accepted_date := accepted_date task;
               accepted_by := accepted_by task; completed_date := Some today |}
   ∧ (∀ j, j ≠ task_id →
        Task_objects (task_mark_completed today request task_id st).2 !! j
        = Task_objects st !! j)
   ∧ Team_objects (task_mark_completed today request task_id st).2
     = Team_objects st
   ∧ Comment_objects (task_mark_completed today request task_id st).2
     = Comment_objects st
   ∧ messages (task_mark_completed today request task_id st).2 =
       messages st
       ++ [(SUCCESS, str "The task is marked as Completed successfully!")])
  ∧ (¬ ((creator task = Some u ∨ u ∈ assigned_to task) ∧ status task = str "PROG") →
     task_mark_completed today request task_id st = (Raise PermissionDenied, st))
  ∧ (∀ r st', task_mark_completed today request task_id st = (Return r, st') →
     (creator task = Some u ∨ u ∈ assigned_to task) ∧ status task = str "PROG").
Proof.
  intros Hu Hm Ht.
  assert (Hden := task_mark_completed_denied today request u task_id task st Hu Hm Ht).
  split; [| split; [exact Hden |]].
  - intros [Hrel Hs].
    assert (Hrun : task_mark_completed today request task_id st =
      (Return (redirect (to_task task_id)),
       set_messages
         (λ l, l ++ [(SUCCESS,
                      str "The task is marked as Completed successfully!")])
         (set_Task_objects
            (insert task_id
               {| title := title task; creator := creator task;
                  team_id := team_id task; assigned_to := assigned_to task;
                  status := str "COMP"; accepted_date := accepted_date task;
                  accepted_by := accepted_by task;
                  completed_date := Some today |})
            st))).
    { unfold task_mark_completed.
      rewrite (decorated_run _ _ _ u Hu) by (rewrite Hm; apply GET_only).
      rewrite (bind_run _ _ _ _ _ (get_object_or_404_found _ _ _ Ht)).
      rewrite !decide_True; [done | done |].
      destruct Hrel; [left; congruence | by right]. }
    split; [exact Hrun |]. rewrite Hrun. simpl.
    split; [apply lookup_insert_eq |].
    split; [intros j Hj; by apply lookup_insert_ne |]. done.
  - intros r st' Hrun.
    destruct (decide ((creator task = Some u ∨ u ∈ assigned_to task)
                      ∧ status task = str "PROG")) as [|Hn]; [done |].
    rewrite (Hden Hn) in Hrun. discriminate.
Qed.

Lemma task_mark_completed_spec_witness :
  user (demo_request GET 1 ∅) = Some 1
  ∧ method (demo_request GET 1 ∅) = GET
  ∧ Task_objects demo_store !! 6 = Some (demo_task "PROG")
  ∧ (task_mark_completed 739000%N (demo_request GET 3 ∅) 6 demo_store
     = (Raise PermissionDenied, demo_store))
  ∧ (fst (task_mark_completed 739000%N (demo_request GET 1 ∅) 6 demo_store)
     = Return (redirect (to_task 6)))
  ∧ Task_objects
      (task_mark_completed 739000%N (demo_request GET 1 ∅) 6 demo_store).2 !! 6
    = Some {| title := str "write report"; creator := Some 1; team_id := Some 7;
              assigned_to := {[2]}; status := str "COMP";
              accepted_date := None; accepted_by := None;
              completed_date := Some 739000%N |}
  ∧ Task_objects
      (task_mark_completed 739000%N (demo_request GET 1 ∅) 6 demo_store).2 !! 5
    = Some (demo_task "PLAN").
Proof.
  assert (H6 : Task_objects demo_store !! 6 = Some (demo_task "PROG"))
    by (vm_compute; reflexivity).
  assert (Hpre : (creator (demo_task "PROG") = Some 1
                  ∨ 1 ∈ assigned_to (demo_task "PROG"))
                 ∧ status (demo_task "PROG") = str "PROG")
    by (split; [left |]; reflexivity).
  split; [reflexivity |]. split; [reflexivity |]. split; [exact H6 |]. split.
  - apply (task_mark_completed_spec 739000%N (demo_request GET 3 ∅) 3 6 _ demo_store
             eq_refl eq_refl H6).
    intros [[Hc | Ha] _]; [discriminate Hc |].
    change (3 ∈ ({[2]} : gset User)) in Ha.
    apply elem_of_singleton in Ha. discriminate Ha.
  - destruct (task_mark_completed_spec 739000%N (demo_request GET 1 ∅) 1 6 _
                demo_store eq_refl eq_refl H6) as [Hok _].
    destruct (Hok Hpre) as (Hrun & Hrow & Hothers & _).
    split; [by rewrite Hrun |]. split; [exact Hrow |].
    rewrite (Hothers 5) by discriminate. vm_compute. reflexivity.
Defined.

(** C3. For a task that exists and an authenticated requester, [task_delete]
    and [task_edit] return a response only when the requester is the task's
    creator and the status is PLAN; otherwise both raise [PermissionDenied]
    and leave the store as it was, so the task is still there, unchanged,
    after a refused delete. *)
Theorem task_delete_edit_spec valid cleaned request u task_id task st :
  user request = Some u →
  Task_objects st !! task_id = Some task →
  (method request = GET →
     (∀ r st', task_delete request task_id st = (Return r, st') →
        creator task = Some u ∧ status task = str "PLAN")
     ∧ (¬ (creator task = Some u ∧ status task = str "PLAN") →
        task_delete request task_id st = (Raise PermissionDenied, st)
        ∧ Task_objects (task_delete request task_id st).2 !! task_id = Some task))
  ∧ (method request ∈ [GET; POST] →
     (∀ r st', task_edit valid cleaned request task_id st = (Return r, st') →
        creator task = Some u ∧ status task = str "PLAN")
     ∧ (¬ (creator task = Some u ∧ status task = str "PLAN") →
        task_edit valid cleaned request task_id st = (Raise PermissionDenied, st))).
Proof.
  intros Hu Ht. split; intros Hm.
  - assert (Hden := task_delete_denied request u task_id task st Hu Hm Ht).
    split.
    + intros r st' Hrun.
      destruct (decide (creator task = Some u ∧ status task = str "PLAN")) as [|Hn];
        [done |].
      rewrite (Hden Hn) in Hrun. discriminate.
    + intros Hn. by rewrite (Hden Hn).
  - assert (Hden := task_edit_denied valid cleaned request u task_id task st Hu Hm Ht).
    split; [| exact Hden].
    intros r st' Hrun.
    destruct (decide (creator task = Some u ∧ status task = str "PLAN")) as [|Hn];
      [done |].
    rewrite (Hden Hn) in Hrun. discriminate.
Qed.

Lemma task_delete_edit_spec_witness :
  user (demo_request GET 2 ∅) = Some 2
  ∧ Task_objects demo_store !! 5 = Some (demo_task "PLAN")
  ∧ method (demo_request GET 2 ∅) = GET
  ∧ method (demo_request GET 2 ∅) ∈ [GET; POST]
  ∧ task_delete (demo_request GET 2 ∅) 5 demo_store
    = (Raise PermissionDenied, demo_store)
  ∧ task_edit (λ _ _, true) (λ _ _, demo_task "COMP") (demo_request GET 2 ∅) 5
      demo_store
    = (Raise PermissionDenied, demo_store).
Proof.
  assert (H5 : Task_objects demo_store !! 5 = Some (demo_task "PLAN"))
    by (vm_compute; reflexivity).
  assert (Hm : method (demo_request GET 2 ∅) ∈ [GET; POST]) by (cbn; set_solver).
  assert (Hn : ¬ (creator (demo_task "PLAN") = Some 2
                  ∧ status (demo_task "PLAN") = str "PLAN"))
    by (intros [Hc _]; discriminate Hc).
  destruct (task_delete_edit_spec (λ _ _, true) (λ _ _, demo_task "COMP")
              (demo_request GET 2 ∅) 2 5 _ demo_store eq_refl H5) as [Hdel Hed].
  split; [reflexivity |]. split; [exact H5 |]. split; [reflexivity |].
  split; [exact Hm |]. split.
  - destruct (Hdel eq_refl) as [_ Hd]. exact (proj1 (Hd Hn)).
  - destruct (Hed Hm) as [_ He]. exact (He Hn).
Defined.

(** C7. For each of the permission-checking task handlers (edit, delete,
    accept, mark-completed, comment, detail), a request by an authenticated
    user, with a method the handler is routed for, on a task that exists and
    whose team reference is intact, whose authorization rule fails, makes
    the handler raise [PermissionDenied] and hand back exactly the store it
    was given: no task field has changed, no row was created or deleted, no
    message was queued. *)
Theorem permission_denied_no_state_change
    valid cleaned today (h : Handler) request u task_id task st :
  user request = Some u →
  method request ∈ handler_methods h →
  Task_objects st !! task_id = Some task →
  team_fk_ok st task →
  ¬ authorized h st u task →
  handler_view valid cleaned today h request task_id st = (Raise PermissionDenied, st).
Proof.
  intros Hu Hm Ht Hfk Hn.
  destruct h; simpl in Hm, Hn; simpl; try apply list_elem_of_singleton in Hm.
  - by apply (task_edit_denied _ _ _ u _ task).
  - by apply (task_delete_denied _ u _ task).
  - by apply (task_accept_denied _ _ u _ task).
  - by apply (task_mark_completed_denied _ _ u _ task).
  - by apply (task_comment_denied _ u _ task).
  - by apply (task_detail_denied _ u _ task).
Qed.

Lemma permission_denied_no_state_change_witness :
  user (demo_request POST 4 ∅) = Some 4
  ∧ method (demo_request POST 4 ∅) ∈ handler_methods h_comment
  ∧ Task_objects demo_store !! 5 = Some (demo_task "PLAN")
  ∧ team_fk_ok demo_store (demo_task "PLAN")
  ∧ ¬ authorized h_comment demo_store 4 (demo_task "PLAN")
  ∧ task_comment (demo_request POST 4 ∅) 5 demo_store
    = (Raise PermissionDenied, demo_store).
Proof.
  assert (H5 : Task_objects demo_store !! 5 = Some (demo_task "PLAN"))
    by (vm_compute; reflexivity).
  assert (Hm : method (demo_request POST 4 ∅) ∈ handler_methods h_comment)
    by (apply list_elem_of_singleton; reflexivity).
  assert (Hfk : team_fk_ok demo_store (demo_task "PLAN")).
  { intros k Hk. injection Hk as <-. exists {| leader := 1; members := {[3]} |}.
    vm_compute. reflexivity. }
  assert (Hn : ¬ authorized h_comment demo_store 4 (demo_task "PLAN")).
  { intros [Hc | [Ha | (k & tm & Hk & Hrow & Hmem)]].
    - discriminate Hc.
    - change (4 ∈ ({[2]} : gset User)) in Ha.
      apply elem_of_singleton in Ha. discriminate Ha.
    - injection Hk as <-. vm_compute in Hrow. injection Hrow as <-.
      change (4 ∈ ({[3]} : gset User)) in Hmem.
      apply elem_of_singleton in Hmem. discriminate Hmem. }
  split; [reflexivity |]. split; [exact Hm |]. split; [exact H5 |].
  split; [exact Hfk |]. split; [exact Hn |].
  exact (permission_denied_no_state_change (λ _ _, true) (λ _ _, demo_task "COMP")
           0%N h_comment (demo_request POST 4 ∅) 4 5 _ demo_store
           eq_refl Hm H5 Hfk Hn).
Defined.

(** ** Creating a task *)

(** C4. For an authenticated user [u] who posts a creation form that is
    valid, [task_create] inserts one new task row, under a key no row had:
    its creator is [u], its status is PLAN and its assignees are exactly
    [{u}]; the other rows are as before, and the response redirects to the
    new task. *)
Theorem task_create_spec valid cleaned request u st :
  user request = Some u →
  method request = POST →
  valid st (TaskCreationForm (Some (POST_data request))
              (filter (λ kt, leader kt.2 = u) (map_to_list (Team_objects st)))) = true →
  ∃ k t st',
    task_create valid cleaned request st = (Return (redirect (to_task k)), st')
    ∧ Task_objects st !! k = None
    ∧ Task_objects st' !! k = Some t
    ∧ creator t = Some u
    ∧ status t = str "PLAN"
    ∧ assigned_to t = {[u]}
    ∧ ∀ j, j ≠ k → Task_objects st' !! j = Task_objects st !! j.
Proof.
  intros Hu Hm Hvalid.
  set (k := fresh (dom (Task_objects st))).
  assert (Hfresh : Task_objects st !! k = None)
    by (apply not_elem_of_dom, is_fresh).
  unfold task_create.
  rewrite (decorated_run _ _ _ u Hu) by (rewrite Hm; set_solver).
  erewrite bind_run by reflexivity. cbn beta.
  rewrite decide_True by done.
  erewrite bind_run by reflexivity. cbn beta.
  rewrite Hvalid.
  erewrite bind_run by reflexivity.
  erewrite bind_run by reflexivity.
  erewrite bind_run by reflexivity.
  eexists k, _, _. split; [reflexivity |].
  split; [exact Hfresh |]. cbn.
  rewrite lookup_alter_eq, lookup_insert_eq. cbn.
  split; [reflexivity |]. split; [reflexivity |]. split; [reflexivity |].
  split; [by rewrite (right_id_L ∅ (∪)) |].
  intros j Hj. by rewrite lookup_alter_ne, lookup_insert_ne.
Qed.

Lemma task_create_spec_witness :
  user (demo_request POST 2 ∅) = Some 2
  ∧ method (demo_request POST 2 ∅) = POST
  ∧ ∃ k t st',
      task_create (λ _ _, true) (λ _ _, (str "plan sprint", None))
        (demo_request POST 2 ∅) demo_store
      = (Return (redirect (to_task k)), st')
      ∧ Task_objects demo_store !! k = None
      ∧ Task_objects st' !! k = Some t
      ∧ creator t = Some 2
      ∧ status t = str "PLAN"
      ∧ assigned_to t = {[2]}
      ∧ ∀ j, j ≠ k → Task_objects st' !! j = Task_objects demo_store !! j.
Proof.
  split; [reflexivity |]. split; [reflexivity |].
  exact (task_create_spec (λ _ _, true) (λ _ _, (str "plan sprint", None))
           (demo_request POST 2 ∅) 2 demo_store eq_refl eq_refl eq_refl).
Defined.

(** ** The list views *)

Lemma elem_of_Task_join_assigned_to st k t a :
  (k, t, a) ∈ Task_join_assigned_to st ↔
  Task_objects st !! k = Some t
  ∧ match a with
    | Some u => u ∈ assigned_to t
    | None => assigned_to t = ∅
    end.
Proof.
  unfold Task_join_assigned_to. rewrite list_elem_of_bind. split.
  - intros ([k' t'] & Hrow & Hkt). apply elem_of_map_to_list in Hkt.
    cbn beta in Hrow.
    destruct (elements (assigned_to (k', t').2)) as [| a0 l] eqn:Hel;
      simpl in Hel.
    + apply list_elem_of_singleton in Hrow. injection Hrow as -> -> ->.
      split; [done |]. by apply leibniz_equiv, elements_empty_iff.
    + apply list_elem_of_fmap in Hrow as (a' & Heq & Ha').
      injection Heq as -> -> ->. split; [done |].
      apply elem_of_elements. by rewrite Hel.
  - intros [Hkt Ha]. exists (k, t). split; [| by apply elem_of_map_to_list].
    cbn beta. change ((k, t).2) with t. destruct a as [u |].
    + apply elem_of_elements in Ha.
      destruct (elements (assigned_to t)) as [| a0 l] eqn:Hel.
      * by apply elem_of_nil in Ha.
      * apply list_elem_of_fmap. by exists u.
    + rewrite Ha, elements_empty. by apply list_elem_of_singleton.
Qed.

(** What the filtered, projected and de-duplicated join contains, for any
    condition [P] on the task's own columns. *)
Lemma elem_of_related_queryset (P : Task → Prop) `{!∀ t, Decision (P t)} u st k t :
  (k, t) ∈ remove_dups (fst <$>
      filter (λ row : nat * Task * option User, P row.1.2)
        (filter (Q_creator_or_assigned_to u) (Task_join_assigned_to st)))
  ↔ Task_objects st !! k = Some t
    ∧ (creator t = Some u ∨ u ∈ assigned_to t) ∧ P t.
Proof.
  rewrite elem_of_remove_dups, list_elem_of_fmap. split.
  - intros ([[k' t'] a] & Heq & Hrow). simpl in Heq. injection Heq as <- <-.
    apply list_elem_of_filter in Hrow as [HP Hrow].
    apply list_elem_of_filter in Hrow as [HQ Hrow].
    apply elem_of_Task_join_assigned_to in Hrow as [Hkt Ha].
    split; [done |]. split; [| done].
    destruct HQ as [Hc | Hu]; simpl in *; [by left |]. subst a. by right.
  - intros (Hkt & Hrel & HP).
    assert (∃ a, (k, t, a) ∈ Task_join_assigned_to st
                 ∧ Q_creator_or_assigned_to u (k, t, a)) as (a & Hrow & HQ).
    { destruct (decide (u ∈ assigned_to t)) as [Hu | Hu].
      - exists (Some u). split; [by apply elem_of_Task_join_assigned_to |].
        by right.
      - destruct Hrel as [Hc | ?]; [| done].
        destruct (elements (assigned_to t)) as [| a0 l] eqn:Hel.
        + exists None. split; [| by left].
          apply elem_of_Task_join_assigned_to. split; [done |].
          by apply leibniz_equiv, elements_empty_iff.
        + exists (Some a0). split; [| by left].
          apply elem_of_Task_join_assigned_to. split; [done |].
          apply elem_of_elements. rewrite Hel. by left. }
    exists (k, t, a). split; [done |].
    apply list_elem_of_filter. split; [done |].
    by apply list_elem_of_filter.
Qed.

Lemma elem_of_tasks_queryset u st k t :
  (k, t) ∈ tasks_queryset u st ↔
  Task_objects st !! k = Some t
  ∧ (creator t = Some u ∨ u ∈ assigned_to t) ∧ status t ≠ str "COMP".
Proof.
  exact (elem_of_related_queryset (λ t, status t ≠ str "COMP") u st k t).
Qed.

Lemma elem_of_completed_tasks_queryset u st k t :
  (k, t) ∈ completed_tasks_queryset u st ↔
  Task_objects st !! k = Some t
  ∧ (creator t = Some u ∨ u ∈ assigned_to t) ∧ status t = str "COMP".
Proof.
  exact (elem_of_related_queryset (λ t, status t = str "COMP") u st k t).
Qed.

(** C5. For an authenticated requester [u], the completed-tasks view
    renders exactly the stored tasks with status COMP that [u] created or is
    assigned to, and the open-tasks view renders exactly the stored tasks
    that [u] created or is assigned to whose status is not COMP; neither
    list repeats a task, and every task that [u] created or is assigned to
    is in one of the two lists and not in the other. *)
Theorem list_views_spec request u st :
  user request = Some u →
  method request = GET →
  tasks request st =
    (Return (render "app/tasks.html"
               [("user", CUser u); ("tasks", CTasks (tasks_queryset u st));
                ("completed", CBool false)]), st)
  ∧ completed_tasks request st =
    (Return (render "app/tasks.html"
               [("user", CUser u); ("tasks", CTasks (completed_tasks_queryset u st));
                ("completed", CBool true)]), st)
  ∧ NoDup (tasks_queryset u st)
  ∧ NoDup (completed_tasks_queryset u st)
  ∧ (∀ k t, (k, t) ∈ completed_tasks_queryset u st ↔
       Task_objects st !! k = Some t
       ∧ (creator t = Some u ∨ u ∈ assigned_to t) ∧ status t = str "COMP")
  ∧ (∀ k t, (k, t) ∈ tasks_queryset u st ↔
       Task_objects st !! k = Some t
       ∧ (creator t = Some u ∨ u ∈ assigned_to t) ∧ status t ≠ str "COMP")
  ∧ (∀ k t, Task_objects st !! k = Some t →
       creator t = Some u ∨ u ∈ assigned_to t →
       ((k, t) ∈ tasks_queryset u st ∧ ¬ (k, t) ∈ completed_tasks_queryset u st)
       ∨ (¬ (k, t) ∈ tasks_queryset u st ∧ (k, t) ∈ completed_tasks_queryset u st)).
Proof.
  intros Hu Hm.
  split; [| split].
  - unfold tasks.
    by rewrite (decorated_run _ _ _ u Hu) by (rewrite Hm; apply GET_only).
  - unfold completed_tasks.
    by rewrite (decorated_run _ _ _ u Hu) by (rewrite Hm; apply GET_only).
  - split; [apply NoDup_remove_dups |]. split; [apply NoDup_remove_dups |].
    split; [apply elem_of_completed_tasks_queryset |].
    split; [apply elem_of_tasks_queryset |].
    intros k t Hkt Hrel.
    rewrite !elem_of_tasks_queryset, !elem_of_completed_tasks_queryset.
    destruct (decide (status t = str "COMP")) as [Hs | Hs]; [right | left]; tauto.
Qed.

Lemma list_views_spec_witness :
  user (demo_request GET 2 ∅) = Some 2
  ∧ method (demo_request GET 2 ∅) = GET
  ∧ (5, demo_task "PLAN") ∈ tasks_queryset 2 demo_store
  ∧ ¬ (5, demo_task "PLAN") ∈ completed_tasks_queryset 2 demo_store.
Proof.
  split; [reflexivity |]. split; [reflexivity |].
  destruct (list_views_spec (demo_request GET 2 ∅) 2 demo_store eq_refl eq_refl)
    as (_ & _ & _ & _ & Hcomp & Hopen & _).
  split.
  - apply Hopen. split; [vm_compute; reflexivity |].
    split; [| discriminate]. right.
    change (2 ∈ ({[2]} : gset User)). by apply elem_of_singleton.
  - intros Hin. apply Hcomp in Hin as (_ & _ & Hs). discriminate Hs.
Defined.

(** ** Commenting *)

Lemma lstrip_nil_iff s : lstrip s = [] ↔ Forall (λ c, isspace c = true) s.
Proof.
  induction s as [| c s IH]; simpl.
  - split; [constructor | done].
  - destruct (isspace c) eqn:Hc.
    + rewrite IH. split; [by constructor | by inversion 1].
    + split; [done |]. inversion 1; congruence.
Qed.

Lemma lstrip_head s c s' : lstrip s = c :: s' → isspace c = false.
Proof.
  induction s as [| d s IH]; simpl; [done |].
  destruct (isspace d) eqn:Hd; [done |]. by intros [= <- <-].
Qed.

(** A body strips to the empty string exactly when it is empty or made of
    whitespace only. *)
Lemma strip_nil_iff s : strip s = [] ↔ Forall (λ c, isspace c = true) s.
Proof.
  unfold strip, rstrip. split.
  - intros H. apply lstrip_nil_iff.
    destruct (lstrip s) as [| c s'] eqn:Hl; [done |].
    apply (f_equal reverse) in H. rewrite reverse_involutive in H.
    change (reverse []) with (@nil N) in H.
    apply lstrip_nil_iff in H.
    apply lstrip_head in Hl.
    rewrite Forall_forall in H. specialize (H c).
    rewrite H in Hl; [done |]. rewrite elem_of_reverse. by left.
  - intros H. apply lstrip_nil_iff in H. by rewrite H.
Qed.

Lemma task_comment_run request u task_id task st :
  user request = Some u → method request = POST →
  Task_objects st !! task_id = Some task →
  may_comment st u task →
  task_comment request task_id st =
    match QueryDict_get (POST_data request) "comment_body" with
    | None => (Raise AttributeError, st)
    | Some submitted =>
        if truthy (strip submitted) then
          (Return (redirect (to_task task_id)),
           set_messages (λ l, l ++ [(SUCCESS, str "The comment is added succesfully")])
             (set_Comment_objects
                (insert (fresh (dom (Comment_objects st)))
                   {| author := u; comment_task_id := task_id; body := submitted |})
                st))
        else
          (Return (redirect (to_task task_id)),
           set_messages (λ l, l ++ [(ERROR, str "Missing required fields")]) st)
    end.
Proof.
  intros Hu Hm Ht Hmay. unfold task_comment.
  rewrite (decorated_run _ _ _ u Hu) by (rewrite Hm; apply POST_only).
  rewrite (bind_run _ _ _ _ _ (get_object_or_404_found _ _ _ Ht)).
  rewrite (bind_run _ _ _ _ _ (task_comment_allowed_true _ _ _ Hmay)).
  unfold QueryDict_get, QueryDict_getitem.
  destruct (POST_data request !! "comment_body") as [[earlier submitted] |];
    simpl; [| done].
  by destruct (truthy (strip submitted)).
Qed.

(** ** Who may see and who may comment *)

Lemma may_comment_dec st u task : may_comment st u task ∨ ¬ may_comment st u task.
Proof.
  unfold may_comment.
  destruct (decide (creator task = Some u)) as [| Hc]; [by left; left |].
  destruct (decide (u ∈ assigned_to task)) as [| Ha]; [by left; right; left |].
  destruct (team_id task) as [k |] eqn:Hk.
  - destruct (Team_objects st !! k) as [tm |] eqn:Hrow.
    + destruct (decide (u ∈ members tm)) as [| Hm]; [left; right; right; eauto |].
      right. intros [? | [? | (k' & tm' & Hk' & Hrow' & Hmem)]]; [done | done |].
      injection Hk' as <-. rewrite Hrow in Hrow'. injection Hrow' as <-. done.
    + right. intros [? | [? | (k' & tm' & Hk' & Hrow' & _)]]; [done | done |].
      injection Hk' as <-. congruence.
  - right. intros [? | [? | (k' & tm' & Hk' & _)]]; [done | done | discriminate].
Qed.

(** C6. For the same requester and the same task, [task_detail] renders the
    detail page exactly when [task_comment] goes on past its permission
    check, and the rule that decides both is the one of the specification:
    the requester is the creator, or an assignee, or the task has a team and
    the requester is one of that team's members.  Under the rule the detail
    view renders the task and the comment view does not raise
    [PermissionDenied]; outside it both views raise [PermissionDenied] and
    leave the store as it was. *)
Theorem detail_and_comment_permission_agree rd rc u task_id task st :
  user rd = Some u → method rd = GET →
  user rc = Some u → method rc = POST →
  Task_objects st !! task_id = Some task →
  team_fk_ok st task →
  (may_comment st u task →
   task_detail rd task_id st =
     (Return (render "app/task_detail.html"
                [("user", CUser u); ("task", CTask task_id task)]), st)
   ∧ (task_comment rc task_id st).1 ≠ Raise PermissionDenied)
  ∧ (¬ may_comment st u task →
     task_detail rd task_id st = (Raise PermissionDenied, st)
     ∧ task_comment rc task_id st = (Raise PermissionDenied, st))
  ∧ ((task_detail rd task_id st).1 = Raise PermissionDenied
     ↔ (task_comment rc task_id st).1 = Raise PermissionDenied)
  ∧ task_detail_allowed u task st = task_comment_allowed u task st.
Proof.
  intros Hud Hmd Huc Hmc Ht Hfk.
  assert (Hyes : may_comment st u task →
    task_detail rd task_id st =
      (Return (render "app/task_detail.html"
                 [("user", CUser u); ("task", CTask task_id task)]), st)
    ∧ (task_comment rc task_id st).1 ≠ Raise PermissionDenied).
  { intros Hmay. split.
    - unfold task_detail.
      rewrite (decorated_run _ _ _ u Hud) by (rewrite Hmd; apply GET_only).
      rewrite (bind_run _ _ _ _ _ (get_object_or_404_found _ _ _ Ht)).
      rewrite task_detail_allowed_eq.
      by rewrite (bind_run _ _ _ _ _ (task_comment_allowed_true _ _ _ Hmay)).
    - rewrite (task_comment_run rc u task_id task st Huc Hmc Ht Hmay).
      destruct (QueryDict_get _ _); [| done]. by destruct (truthy _). }
  assert (Hno : ¬ may_comment st u task →
    task_detail rd task_id st = (Raise PermissionDenied, st)
    ∧ task_comment rc task_id st = (Raise PermissionDenied, st)).
  { intros Hn. split.
    - by apply (task_detail_denied _ u _ task).
    - by apply (task_comment_denied _ u _ task). }
  split; [exact Hyes |]. split; [exact Hno |].
  split; [| by rewrite task_detail_allowed_eq].
  destruct (may_comment_dec st u task) as [Hmay | Hn].
  - destruct (Hyes Hmay) as [Hd Hc]. rewrite Hd. simpl. split; [done |].
    intros Hc'. by destruct Hc.
  - destruct (Hno Hn) as [Hd Hc]. by rewrite Hd, Hc.
Qed.

Lemma detail_and_comment_permission_agree_witness :
  Task_objects demo_store !! 5 = Some (demo_task "PLAN")
  ∧ team_fk_ok demo_store (demo_task "PLAN")
  ∧ may_comment demo_store 3 (demo_task "PLAN")
  ∧ ¬ may_comment demo_store 4 (demo_task "PLAN")
  ∧ task_detail (demo_request GET 3 ∅) 5 demo_store =
      (Return (render "app/task_detail.html"
                 [("user", CUser 3); ("task", CTask 5 (demo_task "PLAN"))]),
       demo_store)
  ∧ (task_comment (demo_request POST 3 ∅) 5 demo_store).1 ≠ Raise PermissionDenied
  ∧ task_detail (demo_request GET 4 ∅) 5 demo_store
    = (Raise PermissionDenied, demo_store)
  ∧ task_comment (demo_request POST 4 ∅) 5 demo_store
    = (Raise PermissionDenied, demo_store).
Proof.
  assert (H5 : Task_objects demo_store !! 5 = Some (demo_task "PLAN"))
    by (vm_compute; reflexivity).
  assert (Hfk : team_fk_ok demo_store (demo_task "PLAN")).
  { intros k Hk. injection Hk as <-. exists {| leader := 1; members := {[3]} |}.
    vm_compute. reflexivity. }
  assert (Hmay : may_comment demo_store 3 (demo_task "PLAN")).
  { right; right. exists 7, {| leader := 1; members := {[3]} |}.
    split; [reflexivity |]. split; [vm_compute; reflexivity |].
    change (3 ∈ ({[3]} : gset User)). by apply elem_of_singleton. }
  assert (Hn : ¬ may_comment demo_store 4 (demo_task "PLAN")).
  { intros [Hc | [Ha | (k & tm & Hk & Hrow & Hmem)]].
    - discriminate Hc.
    - change (4 ∈ ({[2]} : gset User)) in Ha.
      apply elem_of_singleton in Ha. discriminate Ha.
    - injection Hk as <-. vm_compute in Hrow. injection Hrow as <-.
      change (4 ∈ ({[3]} : gset User)) in Hmem.
      apply elem_of_singleton in Hmem. discriminate Hmem. }
  destruct (detail_and_comment_permission_agree (demo_request GET 3 ∅)
              (demo_request POST 3 ∅) 3 5 _ demo_store
              eq_refl eq_refl eq_refl eq_refl H5 Hfk) as (Hyes & _).
  destruct (detail_and_comment_permission_agree (demo_request GET 4 ∅)
              (demo_request POST 4 ∅) 4 5 _ demo_store
              eq_refl eq_refl eq_refl eq_refl H5 Hfk) as (_ & Hno & _).
  destruct (Hyes Hmay) as [Hd3 Hc3]. destruct (Hno Hn) as [Hd4 Hc4].
  split; [exact H5 |]. split; [exact Hfk |]. split; [exact Hmay |].
  split; [exact Hn |]. split; [exact Hd3 |]. split; [exact Hc3 |].
  split; [exact Hd4 | exact Hc4].
Defined.

(** A comment of three spaces by user 3, a member of the task's team, is
    answered by a redirect to the task, not by a rendered form. *)
Lemma blank_comment_is_redirected :
  task_comment (demo_request POST 3 {["comment_body" := ([], str "   ")]}) 5 demo_store
  = (Return (redirect (to_task 5)),
     set_messages (λ l, l ++ [(ERROR, str "Missing required fields")]) demo_store)
  ∧ ¬ blank_comment_rerenders_form.
Proof.
  assert (Hrun :
    task_comment (demo_request POST 3 {["comment_body" := ([], str "   ")]}) 5
      demo_store
    = (Return (redirect (to_task 5)),
       set_messages (λ l, l ++ [(ERROR, str "Missing required fields")]) demo_store))
    by (vm_compute; reflexivity).
  split; [exact Hrun |].
  intros Hclaim.
  destruct (Hclaim (demo_request POST 3 {["comment_body" := ([], str "   ")]})
              3 5 (demo_task "PLAN") demo_store [] (str "   "))
    as [_ (template & context & f & Hr & _)].
  - reflexivity.
  - reflexivity.
  - vm_compute; reflexivity.
  - right; right. exists 7, {| leader := 1; members := {[3]} |}.
    split; [reflexivity |]. split; [vm_compute; reflexivity |].
    change (3 ∈ ({[3]} : gset User)). by apply elem_of_singleton.
  - vm_compute; reflexivity.
  - vm_compute; reflexivity.
  - rewrite Hrun in Hr. discriminate Hr.
Qed.

(** C8, amended. For an authorized requester, [task_comment] with a body
    that is empty or whitespace-only creates no Comment row (no table of the
    store changes), queues the error message "Missing required fields" and
    redirects to the task's page; read back from the store after the
    request, the messages are those before it followed by that one. *)
Theorem task_comment_blank_body request u task_id task st earlier submitted :
  user request = Some u → method request = POST →
  Task_objects st !! task_id = Some task →
  may_comment st u task →
  POST_data request !! "comment_body" = Some (earlier, submitted) →
  strip submitted = [] →
  task_comment request task_id st =
    (Return (redirect (to_task task_id)),
     set_messages (λ l, l ++ [(ERROR, str "Missing required fields")]) st)
  ∧ Comment_objects (task_comment request task_id st).2 = Comment_objects st
  ∧ Task_objects (task_comment request task_id st).2 = Task_objects st
  ∧ Team_objects (task_comment request task_id st).2 = Team_objects st
  ∧ messages (task_comment request task_id st).2 =
      messages st ++ [(ERROR, str "Missing required fields")].
Proof.
  intros Hu Hm Ht Hmay Hbody Hblank.
  rewrite (task_comment_run request u task_id task st Hu Hm Ht Hmay).
  unfold QueryDict_get. rewrite Hbody. simpl.
  by rewrite Hblank.
Qed.

Lemma task_comment_blank_body_witness :
  may_comment demo_store 1 (demo_task "PLAN")
  ∧ strip (str "   ") = []
  ∧ task_comment (demo_request POST 1 {["comment_body" := ([], str "   ")]}) 5
      demo_store
    = (Return (redirect (to_task 5)),
       set_messages (λ l, l ++ [(ERROR, str "Missing required fields")]) demo_store)
  ∧ Comment_objects
      (task_comment (demo_request POST 1 {["comment_body" := ([], str "   ")]}) 5
         demo_store).2 = ∅
  ∧ messages
      (task_comment (demo_request POST 1 {["comment_body" := ([], str "   ")]}) 5
         demo_store).2 = [(ERROR, str "Missing required fields")].
Proof.
  assert (Hmay : may_comment demo_store 1 (demo_task "PLAN")) by (by left).
  assert (Hblank : strip (str "   ") = []) by (vm_compute; reflexivity).
  assert (H5 : Task_objects demo_store !! 5 = Some (demo_task "PLAN"))
    by (vm_compute; reflexivity).
  assert (Hbody : POST_data
            (demo_request POST 1 {["comment_body" := ([], str "   ")]})
            !! "comment_body" = Some ([], str "   "))
    by (vm_compute; reflexivity).
  split; [exact Hmay |]. split; [exact Hblank |].
  destruct (task_comment_blank_body
              (demo_request POST 1 {["comment_body" := ([], str "   ")]})
              1 5 (demo_task "PLAN") demo_store [] (str "   ")
              eq_refl eq_refl H5 Hmay Hbody Hblank)
    as (Hrun & Hcomments & _ & _ & Hmsgs).
  split; [exact Hrun |]. split; [exact Hcomments | exact Hmsgs].
Defined.

(** C9. For an authorized requester and a body that does not strip to the
    empty string, [task_comment] inserts one Comment row, under a key no row
    had, whose body is the submitted text as it came, leading and trailing
    whitespace included; its author is the requester and its task the one
    commented on.  Read back from the store after the request, the row
    under the new key is that comment, every other comment, the tasks and
    the teams are as before, and one success message was added. *)
Theorem task_comment_stores_body_verbatim
    request u task_id task st earlier submitted :
  user request = Some u → method request = POST →
  Task_objects st !! task_id = Some task →
  may_comment st u task →
  POST_data request !! "comment_body" = Some (earlier, submitted) →
  strip submitted ≠ [] →
  ∃ k, Comment_objects st !! k = None
    ∧ task_comment request task_id st =
        (Return (redirect (to_task task_id)),
         set_messages (λ l, l ++ [(SUCCESS, str "The comment is added succesfully")])
           (set_Comment_objects
              (insert k {| author := u; comment_task_id := task_id;
                           body := submitted |})
              st))
    ∧ Comment_objects (task_comment request task_id st).2 !! k =
        Some {| author := u; comment_task_id := task_id; body := submitted |}
    ∧ (∀ j, j ≠ k →
         Comment_objects (task_comment request task_id st).2 !! j
         = Comment_objects st !! j)
    ∧ Task_objects (task_comment request task_id st).2 = Task_objects st
    ∧ Team_objects (task_comment request task_id st).2 = Team_objects st
    ∧ messages (task_comment request task_id st).2 =
        messages st ++ [(SUCCESS, str "The comment is added succesfully")].
Proof.
  intros Hu Hm Ht Hmay Hbody Hfull.
  exists (fresh (dom (Comment_objects st))).
  split; [apply not_elem_of_dom, is_fresh |].
  rewrite (task_comment_run request u task_id task st Hu Hm Ht Hmay).
  unfold QueryDict_get. rewrite Hbody. simpl.
  destruct (strip submitted) as [| c l]; [done |]. simpl.
  split; [done |]. split; [apply lookup_insert_eq |].
  split; [intros j Hj; by apply lookup_insert_ne |]. done.
Qed.

Lemma task_comment_stores_body_verbatim_witness :
  strip (str "  on it ") = str "on it"
  ∧ ∃ k, Comment_objects demo_store !! k = None
    ∧ task_comment (demo_request POST 2 {["comment_body" := ([], str "  on it ")]}) 5
        demo_store
      = (Return (redirect (to_task 5)),
         set_messages (λ l, l ++ [(SUCCESS, str "The comment is added succesfully")])
           (set_Comment_objects
              (insert k {| author := 2; comment_task_id := 5;
                           body := str "  on it " |})
              demo_store))
    ∧ Comment_objects
        (task_comment
           (demo_request POST 2 {["comment_body" := ([], str "  on it ")]}) 5
           demo_store).2 !! k
      = Some {| author := 2; comment_task_id := 5; body := str "  on it " |}.
Proof.
  split; [vm_compute; reflexivity |].
  assert (H5 : Task_objects demo_store !! 5 = Some (demo_task "PLAN"))
    by (vm_compute; reflexivity).
  assert (Hmay : may_comment demo_store 2 (demo_task "PLAN")).
  { right; left. change (2 ∈ ({[2]} : gset User)). by apply elem_of_singleton. }
  assert (Hbody : POST_data
            (demo_request POST 2 {["comment_body" := ([], str "  on it ")]})
            !! "comment_body" = Some ([], str "  on it "))
    by (vm_compute; reflexivity).
  assert (Hfull : strip (str "  on it ") ≠ []) by (vm_compute; discriminate).
  destruct (task_comment_stores_body_verbatim
              (demo_request POST 2 {["comment_body" := ([], str "  on it ")]})
              2 5 (demo_task "PLAN") demo_store [] (str "  on it ")
              eq_refl eq_refl H5 Hmay Hbody Hfull)
    as (k & Hfresh & Hrun & Hrow & _).
  exists k. split; [exact Hfresh |]. split; [exact Hrun | exact Hrow].
Defined.

(** C10. An authorized POST to [task_comment] whose form data has no
    [comment_body] key ends in an uncaught [AttributeError] ([None] has no
    [strip]), with the store untouched, and not in the validation-error
    response; that response is produced only when the key is present. *)
Theorem task_comment_missing_body_key request u task_id task st :
  user request = Some u → method request = POST →
  Task_objects st !! task_id = Some task →
  may_comment st u task →
  (POST_data request !! "comment_body" = None →
   task_comment request task_id st = (Raise AttributeError, st))
  ∧ (task_comment request task_id st =
       (Return (redirect (to_task task_id)),
        set_messages (λ l, l ++ [(ERROR, str "Missing required fields")]) st) →
     is_Some (POST_data request !! "comment_body")).
Proof.
  intros Hu Hm Ht Hmay.
  rewrite (task_comment_run request u task_id task st Hu Hm Ht Hmay).
  unfold QueryDict_get.
  destruct (POST_data request !! "comment_body") as [v |]; simpl.
  - split; [done | eauto].
  - split; [done | discriminate].
Qed.

Lemma task_comment_missing_body_key_witness :
  user (demo_request POST 2 ∅) = Some 2
  ∧ method (demo_request POST 2 ∅) = POST
  ∧ may_comment demo_store 2 (demo_task "PLAN")
  ∧ POST_data (demo_request POST 2 ∅) !! "comment_body" = None
  ∧ task_comment (demo_request POST 2 ∅) 5 demo_store
    = (Raise AttributeError, demo_store).
Proof.
  assert (Hmay : may_comment demo_store 2 (demo_task "PLAN")).
  { right; left. change (2 ∈ ({[2]} : gset User)). by apply elem_of_singleton. }
  assert (H5 : Task_objects demo_store !! 5 = Some (demo_task "PLAN"))
    by (vm_compute; reflexivity).
  split; [reflexivity |]. split; [reflexivity |]. split; [exact Hmay |].
  split; [reflexivity |].
  exact (proj1 (task_comment_missing_body_key (demo_request POST 2 ∅) 2 5
                  (demo_task "PLAN") demo_store eq_refl eq_refl H5 Hmay) eq_refl).
Defined.

(** * Beyond the lifecycle rules: what the views do at the edges *)

Ltac view_unfold :=
  unfold run_view, handler_view, task_create, task_edit, task_delete, tasks,
    completed_tasks, task_detail, task_accept, task_mark_completed, task_comment,
    login_required, require_http_methods.

Ltac prim_unfold :=
  unfold task_detail_allowed, task_comment_allowed, get_object_or_404, Task_team,
    Team_filter_leader, Task_save, Task_insert, Task_assigned_to_add, Task_delete,
    Comment_insert, messages_success, messages_error, QueryDict_getitem,
    get_state, modify_state, raise in *;
  unfold mbind, View_bind, mret, View_ret in *.

(** ** The decorators and the lookup *)

(** X1. No view of [tasks.py] does anything for the anonymous user: whatever
    the method, the posted data and the task asked for, the answer is the
    redirect to the login page and the store is untouched. *)
Theorem anonymous_sent_to_login valid ccd eci today v request task_id st :
  user request = None →
  run_view valid ccd eci today v request task_id st
  = (Return (redirect to_login), st).
Proof. intros Hu. destruct v; view_unfold; by rewrite Hu. Qed.

Lemma anonymous_sent_to_login_witness :
  user {| method := GET; user := None; POST_data := ∅ |} = None
  ∧ task_delete {| method := GET; user := None; POST_data := ∅ |} 5 demo_store
    = (Return (redirect to_login), demo_store).
Proof.
  split; [reflexivity |].
  exact (anonymous_sent_to_login (λ _ _, true) (λ _ _, ([], None))
           (λ _ _, demo_task "PLAN") 0%N v_task_delete
           {| method := GET; user := None; POST_data := ∅ |} 5 demo_store eq_refl).
Defined.

(** X2. For an authenticated user, a request whose method is not among those
    the view is decorated with is answered by [HttpResponseNotAllowed] with
    the permitted methods, before the task is even looked up, and the store
    is untouched: the views that change a task on GET (accept,
    mark-completed, delete) do nothing on POST, and [task_comment] does
    nothing on GET. *)
Theorem method_not_allowed valid ccd eci today v request u task_id st :
  user request = Some u →
  ¬ method request ∈ permitted_methods v →
  run_view valid ccd eci today v request task_id st
  = (Return (HttpResponseNotAllowed (permitted_methods v)), st).
Proof.
  intros Hu Hm. destruct v; view_unfold; rewrite Hu; simpl in Hm;
    by rewrite decide_False.
Qed.

Lemma method_not_allowed_witness :
  user (demo_request POST 1 ∅) = Some 1
  ∧ ¬ method (demo_request POST 1 ∅) ∈ permitted_methods v_task_delete
  ∧ task_delete (demo_request POST 1 ∅) 5 demo_store
    = (Return (HttpResponseNotAllowed [GET]), demo_store)
  ∧ task_delete (demo_request POST 1 ∅) 99 demo_store
    = (Return (HttpResponseNotAllowed [GET]), demo_store).
Proof.
  assert (Hm : ¬ method (demo_request POST 1 ∅) ∈ permitted_methods v_task_delete).
  { intros H. apply list_elem_of_singleton in H. discriminate H. }
  split; [reflexivity |]. split; [exact Hm |]. split.
  - exact (method_not_allowed (λ _ _, true) (λ _ _, ([], None))
             (λ _ _, demo_task "PLAN") 0%N v_task_delete
             (demo_request POST 1 ∅) 1 5 demo_store eq_refl Hm).
  - exact (method_not_allowed (λ _ _, true) (λ _ _, ([], None))
             (λ _ _, demo_task "PLAN") 0%N v_task_delete
             (demo_request POST 1 ∅) 1 99 demo_store eq_refl Hm).
Defined.

Lemma handler_view_404 valid eci today (h : Handler) request u task_id st :
  user request = Some u →
  method request ∈ handler_methods h →
  Task_objects st !! task_id = None →
  handler_view valid eci today h request task_id st = (Raise Http404, st).
Proof.
  intros Hu Hm Hnone.
  assert (H404 : get_object_or_404 task_id st = (Raise Http404, st))
    by (unfold get_object_or_404; by rewrite Hnone).
  destruct h; simpl in Hm |- *;
    [unfold task_edit | unfold task_delete | unfold task_accept
    | unfold task_mark_completed | unfold task_comment | unfold task_detail];
    rewrite (decorated_run _ _ _ u Hu Hm);
    by rewrite (bind_raise _ _ _ _ _ H404).
Qed.

(** X3. For a task id that the database can hold (at most 2^63 - 1) and
    that has no row, each of the six views that take a task raises
    [Http404], whoever asks, and leaves the store untouched.  (A larger
    number in the URL never reaches the lookup as a key; what the database
    adapter answers then is outside this statement.) *)
Theorem missing_task_is_404 valid eci today (h : Handler) request u task_id st :
  user request = Some u →
  method request ∈ handler_methods h →
  pk_in_range task_id →
  Task_objects st !! task_id = None →
  handler_view valid eci today h request task_id st = (Raise Http404, st).
Proof. intros Hu Hm _ Hnone. by apply (handler_view_404 _ _ _ _ _ u). Qed.

Lemma missing_task_is_404_witness :
  user (demo_request GET 1 ∅) = Some 1
  ∧ method (demo_request GET 1 ∅) ∈ handler_methods h_accept
  ∧ pk_in_range 99
  ∧ Task_objects demo_store !! 99 = None
  ∧ task_accept 0%N (demo_request GET 1 ∅) 99 demo_store = (Raise Http404, demo_store).
Proof.
  assert (Hm : method (demo_request GET 1 ∅) ∈ handler_methods h_accept)
    by (apply list_elem_of_singleton; reflexivity).
  assert (Hrange : pk_in_range 99) by (unfold pk_in_range; lia).
  assert (Hnone : Task_objects demo_store !! 99 = None) by (vm_compute; reflexivity).
  split; [reflexivity |]. split; [exact Hm |]. split; [exact Hrange |].
  split; [exact Hnone |].
  exact (missing_task_is_404 (λ _ _, true) (λ _ _, demo_task "PLAN") 0%N h_accept
           (demo_request GET 1 ∅) 1 99 demo_store eq_refl Hm Hrange Hnone).
Defined.

(** ** What no request can make a view do *)

(** X4. In every view, whatever the request, an exception is raised only
    before anything was written: when a view raises, the store it hands
    back is the one it was given.  (Nothing rolls a request back, so this is
    what keeps a refused or failed request from leaving a half-done
    change.) *)
Theorem raise_leaves_store valid ccd eci today v request task_id st e st' :
  run_view valid ccd eci today v request task_id st = (Raise e, st') →
  st' = st.
Proof.
  destruct v; view_unfold; prim_unfold; intros H;
    repeat (case_match; simplify_eq; try done).
Qed.

Lemma raise_leaves_store_witness :
  task_comment (demo_request POST 2 ∅) 5 demo_store = (Raise AttributeError, demo_store)
  ∧ demo_store = demo_store.
Proof.
  assert (H : task_comment (demo_request POST 2 ∅) 5 demo_store
              = (Raise AttributeError, demo_store)) by (vm_compute; reflexivity).
  split; [exact H |].
  exact (raise_leaves_store (λ _ _, true) (λ _ _, ([], None))
           (λ _ _, demo_task "PLAN") 0%N v_task_comment
           (demo_request POST 2 ∅) 5 demo_store _ _ H).
Defined.

(** X5. The two list views and the detail view only read: for every request
    (any user, any method, any task id, even with a broken team reference)
    the store after the view is the store before it. *)
Theorem reading_views_change_nothing request task_id st :
  (tasks request st).2 = st
  ∧ (completed_tasks request st).2 = st
  ∧ (task_detail request task_id st).2 = st.
Proof.
  repeat split; view_unfold; prim_unfold;
    repeat (case_match; simplify_eq; try done).
Qed.

(** ** What a request can have changed *)

Lemma dom_insert_present {A} (m : gmap nat A) k x y :
  m !! k = Some x → dom (<[k:=y]> m) = dom m.
Proof.
  intros H. rewrite dom_insert_L.
  apply subseteq_union_1_L, singleton_subseteq_l. by apply elem_of_dom_2 in H.
Qed.

(** X6. [task_accept], [task_mark_completed] and [task_edit] touch at most
    the row of the task named in the URL, whatever the request and whatever
    the form does: teams and comments are as before, no task row is created
    or deleted and every other task row is unchanged. *)
Theorem one_row_views_frame valid eci today request task_id st :
  only_row_may_change task_id st (task_accept today request task_id st).2
  ∧ only_row_may_change task_id st (task_mark_completed today request task_id st).2
  ∧ only_row_may_change task_id st (task_edit valid eci request task_id st).2.
Proof.
  repeat split; view_unfold; prim_unfold;
    repeat (case_match; simplify_eq; try done);
    simpl; try done;
    try (by eapply dom_insert_present);
    try (by intros; rewrite lookup_insert_ne).
Qed.

(** X7. Whatever the request, [task_accept] leaves the row of the task as it
    was or takes it from PLAN to PROG, and [task_mark_completed] leaves it
    as it was or takes it from PROG to COMP; neither ever changes the title,
    creator, team or assignees, accept never touches [completed_date], and
    mark-completed never touches [accepted_date] or [accepted_by]. *)
Theorem accept_complete_lifecycle_step today request task_id st t :
  Task_objects st !! task_id = Some t →
  ∃ t1 t2,
    Task_objects (task_accept today request task_id st).2 !! task_id = Some t1
    ∧ lifecycle_step "PLAN" "PROG" t t1
    ∧ completed_date t1 = completed_date t
    ∧ Task_objects (task_mark_completed today request task_id st).2 !! task_id
      = Some t2
    ∧ lifecycle_step "PROG" "COMP" t t2
    ∧ accepted_date t2 = accepted_date t
    ∧ accepted_by t2 = accepted_by t.
Proof.
  intros Ht.
  assert (Hsame : ∀ a b, lifecycle_step a b t t) by (repeat split; by left).
  assert (∃ t1,
    Task_objects (task_accept today request task_id st).2 !! task_id = Some t1
    ∧ lifecycle_step "PLAN" "PROG" t t1
    ∧ completed_date t1 = completed_date t) as (t1 & Ht1 & Hs1 & Hc1).
  { view_unfold; prim_unfold;
      repeat (case_match; simplify_eq; try done); simpl; eauto.
    rewrite lookup_insert_eq. eexists; split; [done |].
    repeat split; try done. right. by split. }
  assert (∃ t2,
    Task_objects (task_mark_completed today request task_id st).2 !! task_id
    = Some t2 ∧ lifecycle_step "PROG" "COMP" t t2
    ∧ accepted_date t2 = accepted_date t ∧ accepted_by t2 = accepted_by t)
    as (t2 & Ht2 & Hs2 & Ha2 & Hb2).
  { view_unfold; prim_unfold;
      repeat (case_match; simplify_eq; try done); simpl; eauto 6.
    rewrite lookup_insert_eq. eexists; split; [done |].
    repeat split; try done. right. by split. }
  by exists t1, t2.
Qed.

Lemma accept_complete_lifecycle_step_witness :
  Task_objects demo_store !! 5 = Some (demo_task "PLAN")
  ∧ ∃ t1 t2,
      Task_objects (task_accept 739000%N (demo_request GET 2 ∅) 5 demo_store).2 !! 5
      = Some t1
      ∧ lifecycle_step "PLAN" "PROG" (demo_task "PLAN") t1
      ∧ completed_date t1 = completed_date (demo_task "PLAN")
      ∧ Task_objects
          (task_mark_completed 739000%N (demo_request GET 2 ∅) 5 demo_store).2 !! 5
        = Some t2
      ∧ lifecycle_step "PROG" "COMP" (demo_task "PLAN") t2
      ∧ accepted_date t2 = accepted_date (demo_task "PLAN")
      ∧ accepted_by t2 = accepted_by (demo_task "PLAN").
Proof.
  assert (H5 : Task_objects demo_store !! 5 = Some (demo_task "PLAN"))
    by (vm_compute; reflexivity).
  split; [exact H5 |].
  exact (accept_complete_lifecycle_step 739000%N (demo_request GET 2 ∅) 5
           demo_store _ H5).
Defined.

(** X8. Whatever the request, [task_comment] leaves teams and tasks alone
    and never alters or removes a comment; a comment it adds is by the
    requester and on the task named in the URL, which exists. *)
Theorem task_comment_frame request task_id st :
  comment_frame request task_id st (task_comment request task_id st).2.
Proof.
  assert (Hrefl : comment_frame request task_id st st) by (repeat split; eauto).
  assert (Hnew : ∀ f c, user request = Some (author c) →
            comment_task_id c = task_id → is_Some (Task_objects st !! task_id) →
            comment_frame request task_id st
              (set_messages f
                 (set_Comment_objects
                    (insert (fresh (dom (Comment_objects st))) c) st))).
  { intros f c Hu Hc Ht.
    assert (Hfresh : Comment_objects st !! fresh (dom (Comment_objects st)) = None)
      by apply not_elem_of_dom, is_fresh.
    split; [done |]. split; [done |]. simpl. split; [by apply insert_subseteq |].
    intros k c' Hk. destruct (decide (k = fresh (dom (Comment_objects st)))) as [-> |].
    - rewrite lookup_insert_eq in Hk. injection Hk as <-. by right.
    - rewrite lookup_insert_ne in Hk by done. by left. }
  view_unfold; prim_unfold;
    repeat (case_match; simplify_eq; try done); simpl;
    try (by apply Hnew; eauto).
Qed.

(** X9. Whatever the request, [task_delete] leaves the teams and every other
    task row alone, creates or alters no comment, and keeps every comment
    made on another task. *)
Theorem task_delete_frame request task_id st :
  delete_frame task_id st (task_delete request task_id st).2.
Proof.
  assert (Hrefl : delete_frame task_id st st) by (repeat split; eauto).
  view_unfold; prim_unfold;
    repeat (case_match; simplify_eq; try done); simpl.
  split; [done |]. simpl. split; [by intros; rewrite lookup_delete_ne |].
  split; [apply map_filter_subseteq |].
  intros k c Hk Hc. by apply map_lookup_filter_Some.
Qed.

(** X10. Whatever the request and whatever the form accepts, [task_create]
    leaves the teams and the comments alone and keeps every task row that
    was there: a new task never takes the key of an existing one. *)
Theorem task_create_frame valid ccd request st :
  create_frame st (task_create valid ccd request st).2.
Proof.
  assert (Hrefl : create_frame st st) by (by repeat split).
  view_unfold; prim_unfold;
    repeat (case_match; simplify_eq; try done); simpl.
  split; [done |]. split; [done |]. simpl.
  assert (Hfresh : Task_objects st !! fresh (dom (Task_objects st)) = None)
    by apply not_elem_of_dom, is_fresh.
  apply map_subseteq_spec. intros j t Hj.
  rewrite lookup_alter_ne, lookup_insert_ne; [done | |]; intros <-; congruence.
Qed.

(** ** How the views compose *)

Lemma task_accept_ok today request u task_id task st :
  user request = Some u → method request = GET →
  Task_objects st !! task_id = Some task →
  u ∈ assigned_to task → status task = str "PLAN" →
  task_accept today request task_id st =
    (Return (redirect (to_task task_id)),
     set_messages
       (λ l, l ++ [(SUCCESS, str "The task has marked as In-Progress successfully!")])
       (set_Task_objects
          (insert task_id
             (set_accepted_by (Some u)
                (set_accepted_date (Some today) (set_status (str "PROG") task))))
          st)).
Proof.
  intros Hu Hm Ht Ha Hs. unfold task_accept.
  rewrite (decorated_run _ _ _ u Hu) by (rewrite Hm; apply GET_only).
  rewrite (bind_run _ _ _ _ _ (get_object_or_404_found _ _ _ Ht)).
  by rewrite !decide_True.
Qed.

Lemma task_mark_completed_ok today request u task_id task st :
  user request = Some u → method request = GET →
  Task_objects st !! task_id = Some task →
  creator task = Some u ∨ u ∈ assigned_to task → status task = str "PROG" →
  task_mark_completed today request task_id st =
    (Return (redirect (to_task task_id)),
     set_messages
       (λ l, l ++ [(SUCCESS, str "The task is marked as Completed successfully!")])
       (set_Task_objects
          (insert task_id
             (set_completed_date (Some today) (set_status (str "COMP") task)))
          st)).
Proof.
  intros Hu Hm Ht Hrel Hs. unfold task_mark_completed.
  rewrite (decorated_run _ _ _ u Hu) by (rewrite Hm; apply GET_only).
  rewrite (bind_run _ _ _ _ _ (get_object_or_404_found _ _ _ Ht)).
  rewrite !decide_True; [done | done |].
  destruct Hrel; [left; congruence | by right].
Qed.

Lemma task_delete_ok request u task_id task st :
  user request = Some u → method request = GET →
  Task_objects st !! task_id = Some task →
  creator task = Some u → status task = str "PLAN" →
  task_delete request task_id st =
    (Return (redirect to_index),
     set_messages (λ l, l ++ [(SUCCESS, str "The task is deleted successfully!")])
       (set_Comment_objects (filter (λ kc, comment_task_id kc.2 ≠ task_id))
          (set_Task_objects (delete task_id) st))).
Proof.
  intros Hu Hm Ht Hc Hs. unfold task_delete.
  rewrite (decorated_run _ _ _ u Hu) by (rewrite Hm; apply GET_only).
  rewrite (bind_run _ _ _ _ _ (get_object_or_404_found _ _ _ Ht)).
  by rewrite decide_True.
Qed.

Lemma status_PROG_not_PLAN : str "PROG" ≠ str "PLAN".
Proof. discriminate. Qed.

Lemma status_COMP_not_PLAN : str "COMP" ≠ str "PLAN".
Proof. discriminate. Qed.

Lemma status_COMP_not_PROG : str "COMP" ≠ str "PROG".
Proof. discriminate. Qed.

(** X11. A task accepted by an assignee [u] on day [d1] and then marked
    completed on day [d2] by its creator or any assignee ends as the same
    task with status COMP, [accepted_by] [u], [accepted_date] [d1] and
    [completed_date] [d2]: the second step keeps what the first recorded. *)
Theorem accept_then_complete d1 d2 req1 req2 u v task_id task st :
  user req1 = Some u → method req1 = GET →
  user req2 = Some v → method req2 = GET →
  Task_objects st !! task_id = Some task →
  u ∈ assigned_to task → status task = str "PLAN" →
  creator task = Some v ∨ v ∈ assigned_to task →
  (task_mark_completed d2 req2 task_id (task_accept d1 req1 task_id st).2).1
  = Return (redirect (to_task task_id))
  ∧ Task_objects
      (task_mark_completed d2 req2 task_id (task_accept d1 req1 task_id st).2).2
      !! task_id
    = Some {| title := title task; creator := creator task;
              team_id := team_id task; assigned_to := assigned_to task;
              status := str "COMP"; accepted_date := Some d1;
              accepted_by := Some u; completed_date := Some d2 |}.
Proof.
  intros Hu1 Hm1 Hu2 Hm2 Ht Ha Hs Hrel.
  rewrite (task_accept_ok d1 req1 u task_id task st Hu1 Hm1 Ht Ha Hs). simpl.
  erewrite task_mark_completed_ok;
    [| exact Hu2 | exact Hm2 | simpl; apply lookup_insert_eq | exact Hrel | done].
  simpl. split; [done |]. by rewrite lookup_insert_eq.
Qed.

Lemma accept_then_complete_witness :
  Task_objects demo_store !! 5 = Some (demo_task "PLAN")
  ∧ 2 ∈ assigned_to (demo_task "PLAN")
  ∧ Task_objects
      (task_mark_completed 739007%N (demo_request GET 1 ∅) 5
         (task_accept 739000%N (demo_request GET 2 ∅) 5 demo_store).2).2 !! 5
    = Some {| title := str "write report"; creator := Some 1; team_id := Some 7;
              assigned_to := {[2]}; status := str "COMP";
              accepted_date := Some 739000%N; accepted_by := Some 2;
              completed_date := Some 739007%N |}.
Proof.
  assert (H5 : Task_objects demo_store !! 5 = Some (demo_task "PLAN"))
    by (vm_compute; reflexivity).
  assert (Ha : 2 ∈ assigned_to (demo_task "PLAN")).
  { change (2 ∈ ({[2]} : gset User)). by apply elem_of_singleton. }
  split; [exact H5 |]. split; [exact Ha |].
  exact (proj2 (accept_then_complete 739000%N 739007%N (demo_request GET 2 ∅)
                  (demo_request GET 1 ∅) 2 1 5 (demo_task "PLAN") demo_store
                  eq_refl eq_refl eq_refl eq_refl H5 Ha eq_refl (or_introl eq_refl))).
Defined.

(** X12. Once a task has been accepted, nobody (creator and assignees
    included) can accept it again, delete it or edit it: each of the three
    views raises [PermissionDenied] on the store the accept left, so
    [accepted_by] and [accepted_date] are written once. *)
Theorem accepted_task_is_locked valid eci d1 d req1 req u w task_id task st :
  user req1 = Some u → method req1 = GET →
  Task_objects st !! task_id = Some task →
  u ∈ assigned_to task → status task = str "PLAN" →
  user req = Some w →
  let st1 := (task_accept d1 req1 task_id st).2 in
  (method req = GET →
   task_accept d req task_id st1 = (Raise PermissionDenied, st1)
   ∧ task_delete req task_id st1 = (Raise PermissionDenied, st1))
  ∧ (method req ∈ [GET; POST] →
     task_edit valid eci req task_id st1 = (Raise PermissionDenied, st1)).
Proof.
  intros Hu1 Hm1 Ht Ha Hs Hw st1. subst st1.
  rewrite (task_accept_ok d1 req1 u task_id task st Hu1 Hm1 Ht Ha Hs). simpl.
  set (t1 := set_accepted_by _ _). set (st1 := set_messages _ _).
  assert (Ht1 : Task_objects st1 !! task_id = Some t1) by apply lookup_insert_eq.
  assert (Hs1 : status t1 ≠ str "PLAN") by apply status_PROG_not_PLAN.
  split.
  - intros Hm. split.
    + apply (task_accept_denied _ _ w _ t1); [done .. |]. by intros [_ ?].
    + apply (task_delete_denied _ w _ t1); [done .. |]. by intros [_ ?].
  - intros Hm. apply (task_edit_denied _ _ _ w _ t1); [done .. |]. by intros [_ ?].
Qed.

Lemma accepted_task_is_locked_witness :
  Task_objects demo_store !! 5 = Some (demo_task "PLAN")
  ∧ 2 ∈ assigned_to (demo_task "PLAN")
  ∧ task_delete (demo_request GET 1 ∅) 5
      (task_accept 739000%N (demo_request GET 2 ∅) 5 demo_store).2
    = (Raise PermissionDenied,
       (task_accept 739000%N (demo_request GET 2 ∅) 5 demo_store).2).
Proof.
  assert (H5 : Task_objects demo_store !! 5 = Some (demo_task "PLAN"))
    by (vm_compute; reflexivity).
  assert (Ha : 2 ∈ assigned_to (demo_task "PLAN")).
  { change (2 ∈ ({[2]} : gset User)). by apply elem_of_singleton. }
  split; [exact H5 |]. split; [exact Ha |].
  exact (proj2 (proj1 (accepted_task_is_locked (λ _ _, true)
                  (λ _ _, demo_task "COMP") 739000%N 739001%N
                  (demo_request GET 2 ∅) (demo_request GET 1 ∅) 2 1 5
                  (demo_task "PLAN") demo_store
                  eq_refl eq_refl H5 Ha eq_refl eq_refl) eq_refl)).
Defined.

(** X13. A completed task is final: on the store that a successful
    mark-completed leaves, accept, mark-completed, delete and edit all raise
    [PermissionDenied] for every user. *)
Theorem completed_task_is_final valid eci d2 d req2 req v w task_id task st :
  user req2 = Some v → method req2 = GET →
  Task_objects st !! task_id = Some task →
  creator task = Some v ∨ v ∈ assigned_to task → status task = str "PROG" →
  user req = Some w →
  let st2 := (task_mark_completed d2 req2 task_id st).2 in
  (method req = GET →
   task_accept d req task_id st2 = (Raise PermissionDenied, st2)
   ∧ task_mark_completed d req task_id st2 = (Raise PermissionDenied, st2)
   ∧ task_delete req task_id st2 = (Raise PermissionDenied, st2))
  ∧ (method req ∈ [GET; POST] →
     task_edit valid eci req task_id st2 = (Raise PermissionDenied, st2)).
Proof.
  intros Hu2 Hm2 Ht Hrel Hs Hw st2. subst st2.
  rewrite (task_mark_completed_ok d2 req2 v task_id task st Hu2 Hm2 Ht Hrel Hs).
  simpl. set (t2 := set_completed_date _ _). set (st2 := set_messages _ _).
  assert (Ht2 : Task_objects st2 !! task_id = Some t2) by apply lookup_insert_eq.
  assert (Hs2 : status t2 ≠ str "PLAN") by apply status_COMP_not_PLAN.
  assert (Hs2' : status t2 ≠ str "PROG") by apply status_COMP_not_PROG.
  split.
  - intros Hm. split; [| split].
    + apply (task_accept_denied _ _ w _ t2); [done .. |]. by intros [_ ?].
    + apply (task_mark_completed_denied _ _ w _ t2); [done .. |]. by intros [_ ?].
    + apply (task_delete_denied _ w _ t2); [done .. |]. by intros [_ ?].
  - intros Hm. apply (task_edit_denied _ _ _ w _ t2); [done .. |]. by intros [_ ?].
Qed.

Lemma completed_task_is_final_witness :
  Task_objects demo_store !! 6 = Some (demo_task "PROG")
  ∧ task_mark_completed 739002%N (demo_request GET 1 ∅) 6
      (task_mark_completed 739001%N (demo_request GET 2 ∅) 6 demo_store).2
    = (Raise PermissionDenied,
       (task_mark_completed 739001%N (demo_request GET 2 ∅) 6 demo_store).2).
Proof.
  assert (H6 : Task_objects demo_store !! 6 = Some (demo_task "PROG"))
    by (vm_compute; reflexivity).
  assert (Ha : 2 ∈ assigned_to (demo_task "PROG")).
  { change (2 ∈ ({[2]} : gset User)). by apply elem_of_singleton. }
  split; [exact H6 |].
  exact (proj1 (proj2 (proj1 (completed_task_is_final (λ _ _, true)
                  (λ _ _, demo_task "COMP") 739001%N 739002%N
                  (demo_request GET 2 ∅) (demo_request GET 1 ∅) 2 1 6
                  (demo_task "PROG") demo_store
                  eq_refl eq_refl H6 (or_intror Ha) eq_refl eq_refl) eq_refl))).
Defined.

(** X14. A planned task deleted by its creator is gone: its row is removed
    and no other, one success message is queued, the response redirects to
    the index, and from then on each of the six views that take a task
    answers [Http404] for that id, whoever asks. *)
Theorem deleted_task_is_gone valid eci today request u task_id task st :
  user request = Some u → method request = GET →
  Task_objects st !! task_id = Some task →
  creator task = Some u → status task = str "PLAN" →
  let st' := (task_delete request task_id st).2 in
  (task_delete request task_id st).1 = Return (redirect to_index)
  ∧ Task_objects st' = delete task_id (Task_objects st)
  ∧ messages st'
    = messages st ++ [(SUCCESS, str "The task is deleted successfully!")]
  ∧ ∀ (h : Handler) req w,
      user req = Some w → method req ∈ handler_methods h →
      handler_view valid eci today h req task_id st' = (Raise Http404, st').
Proof.
  intros Hu Hm Ht Hc Hs st'. subst st'.
  rewrite (task_delete_ok request u task_id task st Hu Hm Ht Hc Hs). simpl.
  split; [done |]. split; [done |]. split; [done |].
  intros h req w Hw Hmeth. apply (handler_view_404 _ _ _ _ _ w); [done .. |].
  apply lookup_delete_eq.
Qed.

Lemma deleted_task_is_gone_witness :
  Task_objects demo_store !! 5 = Some (demo_task "PLAN")
  ∧ Task_objects (task_delete (demo_request GET 1 ∅) 5 demo_store).2
    = delete 5 (Task_objects demo_store).
Proof.
  assert (H5 : Task_objects demo_store !! 5 = Some (demo_task "PLAN"))
    by (vm_compute; reflexivity).
  split; [exact H5 |].
  exact (proj1 (proj2 (deleted_task_is_gone (λ _ _, true) (λ _ _, demo_task "COMP")
                  0%N (demo_request GET 1 ∅) 1 5 (demo_task "PLAN") demo_store
                  eq_refl eq_refl H5 eq_refl eq_refl))).
Defined.

(** ** Comments and forms *)

(** X15. For an authorized requester who submits a [comment_body], a Comment
    row is added exactly when the body has at least one character that is
    not whitespace. *)
Theorem comment_stored_iff_visible_text
    request u task_id task st (earlier : list pystr) (submitted : pystr) :
  user request = Some u → method request = POST →
  Task_objects st !! task_id = Some task →
  may_comment st u task →
  POST_data request !! "comment_body" = Some (earlier, submitted) →
  Comment_objects (task_comment request task_id st).2 ≠ Comment_objects st
  ↔ Exists (λ c, isspace c = false) submitted.
Proof.
  intros Hu Hm Ht Hmay Hbody.
  rewrite (task_comment_run request u task_id task st Hu Hm Ht Hmay).
  unfold QueryDict_get. rewrite Hbody. simpl.
  destruct (strip submitted) as [| c l] eqn:Hstrip; simpl.
  - apply strip_nil_iff in Hstrip. split; [done |].
    intros Hex. apply Exists_exists in Hex as (c & Hc & Hsp).
    rewrite Forall_forall in Hstrip. specialize (Hstrip c Hc). congruence.
  - split.
    + intros _.
      assert (Hnot : ¬ Forall (λ c, isspace c = true) submitted).
      { intros Hall. apply strip_nil_iff in Hall. congruence. }
      apply not_Forall_Exists in Hnot; [| apply _].
      eapply Exists_impl; [exact Hnot |]. simpl. intros x Hx.
      by destruct (isspace x).
    + intros _ Heq.
      assert (Hfresh : Comment_objects st !! fresh (dom (Comment_objects st)) = None)
        by apply not_elem_of_dom, is_fresh.
      apply (f_equal (λ m, m !! fresh (dom (Comment_objects st)))) in Heq.
      rewrite lookup_insert_eq in Heq. congruence.
Qed.

Lemma comment_stored_iff_visible_text_witness :
  may_comment demo_store 3 (demo_task "PLAN")
  ∧ Exists (λ c, isspace c = false) (str " ok ")
  ∧ Comment_objects
      (task_comment (demo_request POST 3 {["comment_body" := ([], str " ok ")]}) 5
         demo_store).2
    ≠ Comment_objects demo_store.
Proof.
  assert (Hmay : may_comment demo_store 3 (demo_task "PLAN")).
  { right; right. exists 7, {| leader := 1; members := {[3]} |}.
    split; [reflexivity |]. split; [vm_compute; reflexivity |].
    change (3 ∈ ({[3]} : gset User)). by apply elem_of_singleton. }
  assert (Hex : Exists (λ c, isspace c = false) (str " ok "))
    by (apply Exists_cons_tl, Exists_cons_hd; reflexivity).
  split; [exact Hmay |]. split; [exact Hex |].
  refine (proj2 (comment_stored_iff_visible_text
            (demo_request POST 3 {["comment_body" := ([], str " ok ")]})
            3 5 (demo_task "PLAN") demo_store [] (str " ok ")
            eq_refl eq_refl _ Hmay _) Hex); vm_compute; reflexivity.
Defined.

(** X16. [task_create] shows the creation form and stores nothing unless a
    valid form is posted: on GET it renders the unbound form with the teams
    the user leads, on a POST the form rejects it renders the bound form
    again; either way the store is untouched. *)
Theorem task_create_form_pages valid ccd request u st :
  user request = Some u →
  let teams := filter (λ kt, leader kt.2 = u) (map_to_list (Team_objects st)) in
  (method request = GET →
   task_create valid ccd request st =
     (Return (render "app/task_create-edit.html"
                [("user", CUser u); ("form", CForm (TaskCreationForm None teams));
                 ("teams", CTeams teams); ("creation", CBool true)]), st))
  ∧ (method request = POST →
     valid st (TaskCreationForm (Some (POST_data request)) teams) = false →
     task_create valid ccd request st =
       (Return (render "app/task_create-edit.html"
                  [("user", CUser u);
                   ("form", CForm (TaskCreationForm (Some (POST_data request)) teams));
                   ("creation", CBool true)]), st)).
Proof.
  intros Hu teams. split.
  - intros Hm. unfold task_create.
    rewrite (decorated_run _ _ _ u Hu) by (rewrite Hm; by left).
    erewrite bind_run by reflexivity. cbn beta.
    rewrite decide_False by (rewrite Hm; discriminate). done.
  - intros Hm Hinvalid. unfold task_create.
    rewrite (decorated_run _ _ _ u Hu) by (rewrite Hm; right; by left).
    erewrite bind_run by reflexivity. cbn beta.
    rewrite decide_True by done.
    erewrite bind_run by reflexivity. cbn beta.
    fold teams. by rewrite Hinvalid.
Qed.

Lemma task_create_form_pages_witness :
  user (demo_request POST 2 ∅) = Some 2
  ∧ method (demo_request POST 2 ∅) = POST
  ∧ task_create (λ _ _, false) (λ _ _, ([], None)) (demo_request POST 2 ∅) demo_store
    = (Return (render "app/task_create-edit.html"
                 [("user", CUser 2);
                  ("form", CForm (TaskCreationForm (Some ∅)
                     (filter (λ kt, leader kt.2 = 2)
                        (map_to_list (Team_objects demo_store)))));
                  ("creation", CBool true)]), demo_store).
Proof.
  split; [reflexivity |]. split; [reflexivity |].
  exact (proj2 (task_create_form_pages (λ _ _, false) (λ _ _, ([], None))
                  (demo_request POST 2 ∅) 2 demo_store eq_refl) eq_refl eq_refl).
Defined.

Lemma Task_team_resolved st task :
  team_fk_ok st task →
  Task_team task st = (Return (Task_team_row st task), st).
Proof.
  intros Hfk. unfold Task_team, Task_team_row.
  destruct (team_id task) as [k |] eqn:Hk; [| done]. simpl.
  destruct (Hfk k Hk) as [tm Hrow]. by rewrite Hrow.
Qed.

(** X17. For the creator of a planned task whose team reference is intact,
    [task_edit] renders the edit form for the stored task on GET.  On a POST
    the form rejects it stores nothing and renders the form again, and the
    task it shows (as [task] and as the form's instance) is the instance the
    form's validation has written the accepted fields to, with the stored
    assignees.  On a POST the form accepts, the cleaned instance is the row
    read back under the same key, one success message was added, and the
    response redirects to the task. *)
Theorem task_edit_by_creator valid eci request u task_id task st :
  user request = Some u →
  Task_objects st !! task_id = Some task →
  creator task = Some u → status task = str "PLAN" →
  team_fk_ok st task →
  (method request = GET →
   task_edit valid eci request task_id st =
     (Return (render "app/task_create-edit.html"
                [("user", CUser u);
                 ("form", CForm (edit_form st u task_id task None));
                 ("task", CTask task_id task); ("creation", CBool false)]), st))
  ∧ (method request = POST →
     let form := edit_form st u task_id task (Some (POST_data request)) in
     let shown := set_assigned_to (assigned_to task) (eci st form) in
     (valid st form = false →
      task_edit valid eci request task_id st =
        (Return (render "app/task_create-edit.html"
                   [("user", CUser u);
                    ("form",
                     CForm (TaskEditForm (Some (POST_data request))
                              (task_id, shown)
                              (members <$> Task_team_row st task)
                              (match Task_team_row st task with
                               | Some _ => true
                               | None => false
                               end)
                              (filter (λ kt, leader kt.2 = u)
                                 (map_to_list (Team_objects st)))));
                    ("task", CTask task_id shown); ("creation", CBool false)]),
         st))
     ∧ (valid st form = true →
        (task_edit valid eci request task_id st).1
        = Return (redirect (to_task task_id))
        ∧ Task_objects (task_edit valid eci request task_id st).2 !! task_id
          = Some (eci st form)
        ∧ messages (task_edit valid eci request task_id st).2
          = messages st ++ [(SUCCESS, str "The changes are saved successfully!")])).
Proof.
  intros Hu Ht Hc Hs Hfk.
  assert (Hrun : ∀ m, method request = m → m ∈ [GET; POST] →
    task_edit valid eci request task_id st =
      (if decide (m = POST) then
         let form := edit_form st u task_id task (Some (POST_data request)) in
         st0 ← get_state;
         if valid st0 form then
           _ ← Task_save task_id (eci st0 form);
           _ ← messages_success (str "The changes are saved successfully!");
           mret (redirect (to_task task_id))
         else
           let shown := set_assigned_to (assigned_to task) (eci st0 form) in
           mret (render "app/task_create-edit.html"
                   [("user", CUser u);
                    ("form",
                     CForm (TaskEditForm (Some (POST_data request))
                              (task_id, shown)
                              (members <$> Task_team_row st task)
                              (match Task_team_row st task with
                               | Some _ => true
                               | None => false
                               end)
                              (filter (λ kt, leader kt.2 = u)
                                 (map_to_list (Team_objects st)))));
                    ("task", CTask task_id shown); ("creation", CBool false)])
       else
         mret (render "app/task_create-edit.html"
                 [("user", CUser u);
                  ("form", CForm (edit_form st u task_id task None));
                  ("task", CTask task_id task); ("creation", CBool false)])) st).
  { intros m Hm Hin. unfold task_edit.
    rewrite (decorated_run _ _ _ u Hu) by (by rewrite Hm).
    rewrite (bind_run _ _ _ _ _ (get_object_or_404_found _ _ _ Ht)).
    rewrite decide_True by done.
    erewrite bind_run by reflexivity. cbn beta.
    rewrite (bind_run _ _ _ _ _ (Task_team_resolved _ _ Hfk)).
    rewrite Hm. unfold edit_form. by destruct (decide (m = POST)). }
  split.
  - intros Hm. rewrite (Hrun GET Hm) by (by left). done.
  - intros Hm form shown. rewrite (Hrun POST Hm) by (right; by left).
    rewrite decide_True by done. cbn zeta. fold form.
    erewrite bind_run by reflexivity. cbn beta.
    split; intros Hv; rewrite Hv; [done |].
    erewrite bind_run by reflexivity.
    erewrite bind_run by reflexivity. simpl.
    split; [done |]. split; [apply lookup_insert_eq | done].
Qed.

Lemma task_edit_by_creator_witness :
  user (demo_request POST 1 ∅) = Some 1
  ∧ Task_objects demo_store !! 5 = Some (demo_task "PLAN")
  ∧ team_fk_ok demo_store (demo_task "PLAN")
  ∧ Task_objects
      (task_edit (λ _ _, true) (λ _ _, demo_task "PROG") (demo_request POST 1 ∅) 5
         demo_store).2 !! 5
    = Some (demo_task "PROG")
  ∧ (task_edit (λ _ _, false) (λ _ _, demo_task "PROG") (demo_request POST 1 ∅) 5
       demo_store).2
    = demo_store.
Proof.
  assert (H5 : Task_objects demo_store !! 5 = Some (demo_task "PLAN"))
    by (vm_compute; reflexivity).
  assert (Hfk : team_fk_ok demo_store (demo_task "PLAN")).
  { intros k Hk. injection Hk as <-. exists {| leader := 1; members := {[3]} |}.
    vm_compute. reflexivity. }
  split; [reflexivity |]. split; [exact H5 |]. split; [exact Hfk |]. split.
  - destruct (proj2 (task_edit_by_creator (λ _ _, true) (λ _ _, demo_task "PROG")
                       (demo_request POST 1 ∅) 1 5 (demo_task "PLAN") demo_store
                       eq_refl H5 eq_refl eq_refl Hfk) eq_refl) as [_ Hvalid].
    exact (proj1 (proj2 (Hvalid eq_refl))).
  - destruct (proj2 (task_edit_by_creator (λ _ _, false) (λ _ _, demo_task "PROG")
                       (demo_request POST 1 ∅) 1 5 (demo_task "PLAN") demo_store
                       eq_refl H5 eq_refl eq_refl Hfk) eq_refl) as [Hinvalid _].
    by rewrite (Hinvalid eq_refl).
Defined.

(** ** The lists and the lifecycle *)

(** X18. Marking a task completed moves it from the open list to the
    completed list of its creator and of each assignee: before, it is in
    their open list; after, it is in their completed list (with status COMP
    and the completion date) and no row of it is in their open list. *)
Theorem completion_moves_task_between_lists today request v w task_id task st :
  user request = Some v → method request = GET →
  Task_objects st !! task_id = Some task →
  creator task = Some v ∨ v ∈ assigned_to task → status task = str "PROG" →
  creator task = Some w ∨ w ∈ assigned_to task →
  let st' := (task_mark_completed today request task_id st).2 in
  (task_id, task) ∈ tasks_queryset w st
  ∧ (task_id, set_completed_date (Some today) (set_status (str "COMP") task))
    ∈ completed_tasks_queryset w st'
  ∧ ∀ t, ¬ (task_id, t) ∈ tasks_queryset w st'.
Proof.
  intros Hu Hm Ht Hrel Hs Hw st'. subst st'.
  rewrite (task_mark_completed_ok today request v task_id task st Hu Hm Ht Hrel Hs).
  simpl. split; [| split].
  - apply elem_of_tasks_queryset. split; [done |]. split; [done |].
    rewrite Hs. apply not_eq_sym, status_COMP_not_PROG.
  - apply elem_of_completed_tasks_queryset. simpl.
    split; [apply lookup_insert_eq |]. by split.
  - intros t Hin. apply elem_of_tasks_queryset in Hin as (Hrow & _ & Hnot).
    simpl in Hrow. rewrite lookup_insert_eq in Hrow. injection Hrow as <-.
    by apply Hnot.
Qed.

Lemma completion_moves_task_between_lists_witness :
  Task_objects demo_store !! 6 = Some (demo_task "PROG")
  ∧ (6, demo_task "PROG") ∈ tasks_queryset 1 demo_store
  ∧ ∀ t, ¬ (6, t) ∈ tasks_queryset 1
             (task_mark_completed 739001%N (demo_request GET 2 ∅) 6 demo_store).2.
Proof.
  assert (H6 : Task_objects demo_store !! 6 = Some (demo_task "PROG"))
    by (vm_compute; reflexivity).
  assert (Ha : 2 ∈ assigned_to (demo_task "PROG")).
  { change (2 ∈ ({[2]} : gset User)). by apply elem_of_singleton. }
  split; [exact H6 |].
  destruct (completion_moves_task_between_lists 739001%N (demo_request GET 2 ∅)
              2 1 6 (demo_task "PROG") demo_store eq_refl eq_refl H6
              (or_intror Ha) eq_refl (or_introl eq_refl)) as (Hopen & _ & Hout).
  split; [exact Hopen | exact Hout].
Defined.

(** X19. Every task that one of the list views shows a user can be opened by
    that user: [task_detail] renders it, without consulting the team. *)
Theorem listed_task_can_be_opened request u k t st :
  user request = Some u → method request = GET →
  (k, t) ∈ tasks_queryset u st ∨ (k, t) ∈ completed_tasks_queryset u st →
  task_detail request k st =
    (Return (render "app/task_detail.html" [("user", CUser u); ("task", CTask k t)]),
     st).
Proof.
  intros Hu Hm Hin.
  assert (Task_objects st !! k = Some t
          ∧ (creator t = Some u ∨ u ∈ assigned_to t)) as [Ht Hrel].
  { destruct Hin as [Hin | Hin];
      [apply elem_of_tasks_queryset in Hin
      | apply elem_of_completed_tasks_queryset in Hin]; tauto. }
  unfold task_detail.
  rewrite (decorated_run _ _ _ u Hu) by (rewrite Hm; apply GET_only).
  rewrite (bind_run _ _ _ _ _ (get_object_or_404_found _ _ _ Ht)).
  unfold task_detail_allowed. rewrite decide_True; [done |].
  destruct Hrel; [left; congruence | by right].
Qed.

Lemma listed_task_can_be_opened_witness :
  (5, demo_task "PLAN") ∈ tasks_queryset 2 demo_store
  ∧ task_detail (demo_request GET 2 ∅) 5 demo_store =
    (Return (render "app/task_detail.html"
               [("user", CUser 2); ("task", CTask 5 (demo_task "PLAN"))]),
     demo_store).
Proof.
  assert (Hin : (5, demo_task "PLAN") ∈ tasks_queryset 2 demo_store).
  { apply elem_of_tasks_queryset. split; [vm_compute; reflexivity |].
    split; [| discriminate]. right.
    change (2 ∈ ({[2]} : gset User)). by apply elem_of_singleton. }
  split; [exact Hin |].
  exact (listed_task_can_be_opened (demo_request GET 2 ∅) 2 5 _ demo_store
           eq_refl eq_refl (or_introl Hin)).
Defined.

Lemma task_create_ok valid ccd request u st :
  user request = Some u →
  method request = POST →
  let form := TaskCreationForm (Some (POST_data request))
                (filter (λ kt, leader kt.2 = u) (map_to_list (Team_objects st))) in
  valid st form = true →
  let k := fresh (dom (Task_objects st)) in
  let new_task := set_creator (Some u) (TaskCreationForm_save_uncommitted (ccd st form)) in
  (task_create valid ccd request st).1 = Return (redirect (to_task k))
  ∧ Task_objects (task_create valid ccd request st).2 !! k
    = Some {| title := title new_task; creator := Some u;
              team_id := team_id new_task; assigned_to := {[u]};
              status := str "PLAN"; accepted_date := None; accepted_by := None;
              completed_date := None |}.
Proof.
  intros Hu Hm form Hvalid k new_task.
  unfold task_create.
  rewrite (decorated_run _ _ _ u Hu) by (rewrite Hm; right; by left).
  erewrite bind_run by reflexivity. cbn beta.
  rewrite decide_True by done.
  erewrite bind_run by reflexivity. cbn beta.
  fold form. rewrite Hvalid.
  erewrite bind_run by reflexivity.
  erewrite bind_run by reflexivity.
  erewrite bind_run by reflexivity.
  split; [reflexivity |]. cbn.
  rewrite lookup_alter_eq, lookup_insert_eq. cbn.
  by rewrite (right_id_L ∅ (∪)).
Qed.

(** X20. A task just created is in its creator's open list, and its creator
    can at once accept it (being its first assignee) or delete it. *)
Theorem created_task_is_listed_and_open valid ccd today request req' u st :
  user request = Some u →
  method request = POST →
  valid st (TaskCreationForm (Some (POST_data request))
              (filter (λ kt, leader kt.2 = u) (map_to_list (Team_objects st)))) = true →
  user req' = Some u → method req' = GET →
  ∃ k t,
    (task_create valid ccd request st).1 = Return (redirect (to_task k))
    ∧ (k, t) ∈ tasks_queryset u (task_create valid ccd request st).2
    ∧ (task_accept today req' k (task_create valid ccd request st).2).1
      = Return (redirect (to_task k))
    ∧ (task_delete req' k (task_create valid ccd request st).2).1
      = Return (redirect to_index).
Proof.
  intros Hu Hm Hvalid Hu' Hm'.
  destruct (task_create_ok valid ccd request u st Hu Hm Hvalid) as [Hr Hrow].
  eexists _, _. split; [exact Hr |]. split; [| split].
  - apply elem_of_tasks_queryset. split; [exact Hrow |].
    split; [by left | discriminate].
  - erewrite task_accept_ok; [done | exact Hu' | exact Hm' | exact Hrow | | done].
    simpl. by apply elem_of_singleton.
  - erewrite task_delete_ok; [done | exact Hu' | exact Hm' | exact Hrow | done | done].
Qed.

Lemma created_task_is_listed_and_open_witness :
  user (demo_request POST 2 ∅) = Some 2
  ∧ method (demo_request POST 2 ∅) = POST
  ∧ ∃ k t,
      (task_create (λ _ _, true) (λ _ _, (str "plan sprint", None))
         (demo_request POST 2 ∅) demo_store).1 = Return (redirect (to_task k))
      ∧ (k, t) ∈ tasks_queryset 2
           (task_create (λ _ _, true) (λ _ _, (str "plan sprint", None))
              (demo_request POST 2 ∅) demo_store).2
      ∧ (task_accept 739000%N (demo_request GET 2 ∅) k
           (task_create (λ _ _, true) (λ _ _, (str "plan sprint", None))
              (demo_request POST 2 ∅) demo_store).2).1
        = Return (redirect (to_task k))
      ∧ (task_delete (demo_request GET 2 ∅) k
           (task_create (λ _ _, true) (λ _ _, (str "plan sprint", None))
              (demo_request POST 2 ∅) demo_store).2).1
        = Return (redirect to_index).
Proof.
  split; [reflexivity |]. split; [reflexivity |].
  exact (created_task_is_listed_and_open (λ _ _, true)
           (λ _ _, (str "plan sprint", None)) 739000%N
           (demo_request POST 2 ∅) (demo_request GET 2 ∅) 2 demo_store
           eq_refl eq_refl eq_refl eq_refl eq_refl).
Defined.

(** X21. Belonging to the task's team lets a user see the task and comment
    on it and nothing more: a team member who is neither the creator nor an
    assignee gets the detail page and is let through by [task_comment], but
    accept, mark-completed, delete and edit all raise [PermissionDenied],
    whatever the task's status. *)
Theorem team_member_may_only_look_and_comment
    valid eci today post u k tm task_id task st :
  Task_objects st !! task_id = Some task →
  team_id task = Some k → Team_objects st !! k = Some tm → u ∈ members tm →
  creator task ≠ Some u → ¬ u ∈ assigned_to task →
  task_detail (mkRequest GET (Some u) post) task_id st
  = (Return (render "app/task_detail.html"
               [("user", CUser u); ("task", CTask task_id task)]), st)
  ∧ (task_comment (mkRequest POST (Some u) post) task_id st).1
    ≠ Raise PermissionDenied
  ∧ task_accept today (mkRequest GET (Some u) post) task_id st
    = (Raise PermissionDenied, st)
  ∧ task_mark_completed today (mkRequest GET (Some u) post) task_id st
    = (Raise PermissionDenied, st)
  ∧ task_delete (mkRequest GET (Some u) post) task_id st
    = (Raise PermissionDenied, st)
  ∧ task_edit valid eci (mkRequest GET (Some u) post) task_id st
    = (Raise PermissionDenied, st)
  ∧ task_edit valid eci (mkRequest POST (Some u) post) task_id st
    = (Raise PermissionDenied, st).
Proof.
  intros Ht Hk Hrow Hmem Hc Ha.
  assert (Hmay : may_comment st u task) by (right; right; eauto).
  split; [| split; [| split; [| split; [| split; [| split]]]]].
  - unfold task_detail.
    rewrite (decorated_run _ _ (mkRequest GET (Some u) post) u eq_refl)
      by apply GET_only.
    rewrite (bind_run _ _ _ _ _ (get_object_or_404_found _ _ _ Ht)).
    rewrite task_detail_allowed_eq.
    by rewrite (bind_run _ _ _ _ _ (task_comment_allowed_true _ _ _ Hmay)).
  - rewrite (task_comment_run (mkRequest POST (Some u) post) u task_id task st
               eq_refl eq_refl Ht Hmay).
    destruct (QueryDict_get _ _); [| done]. by destruct (truthy _).
  - apply (task_accept_denied _ _ u _ task); [done .. |]. by intros [? _].
  - apply (task_mark_completed_denied _ _ u _ task); [done .. |].
    by intros [[? | ?] _].
  - apply (task_delete_denied _ u _ task); [done .. |]. by intros [? _].
  - apply (task_edit_denied _ _ _ u _ task); [done | by left | done |].
    by intros [? _].
  - apply (task_edit_denied _ _ _ u _ task); [done | right; by left | done |].
    by intros [? _].
Qed.

Lemma team_member_may_only_look_and_comment_witness :
  Task_objects demo_store !! 5 = Some (demo_task "PLAN")
  ∧ Team_objects demo_store !! 7 = Some {| leader := 1; members := {[3]} |}
  ∧ task_accept 739000%N (mkRequest GET (Some 3) ∅) 5 demo_store
    = (Raise PermissionDenied, demo_store)
  ∧ task_detail (mkRequest GET (Some 3) ∅) 5 demo_store
    = (Return (render "app/task_detail.html"
                 [("user", CUser 3); ("task", CTask 5 (demo_task "PLAN"))]),
       demo_store).
Proof.
  assert (H5 : Task_objects demo_store !! 5 = Some (demo_task "PLAN"))
    by (vm_compute; reflexivity).
  assert (H7 : Team_objects demo_store !! 7
               = Some {| leader := 1; members := {[3]} |})
    by (vm_compute; reflexivity).
  assert (Hmem : 3 ∈ members {| leader := 1; members := {[3]} |}).
  { change (3 ∈ ({[3]} : gset User)). by apply elem_of_singleton. }
  assert (Hc : creator (demo_task "PLAN") ≠ Some 3) by discriminate.
  assert (Ha : ¬ 3 ∈ assigned_to (demo_task "PLAN")).
  { change (¬ 3 ∈ ({[2]} : gset User)). intros H.
    apply elem_of_singleton in H. discriminate H. }
  destruct (team_member_may_only_look_and_comment (λ _ _, true)
              (λ _ _, demo_task "COMP") 739000%N ∅ 3 7 _ 5 _ demo_store
              H5 eq_refl H7 Hmem Hc Ha) as (Hdetail & _ & Haccept & _).
  split; [exact H5 |]. split; [exact H7 |]. split; [exact Haccept | exact Hdetail].
Defined.

(** ** What every view keeps *)

Section Keeps.
Context (R : relation State) `{!PreOrder R}.

Lemma keeps_unchanged {A} (m : View A) : (∀ st, (m st).2 = st) → keeps R m.
Proof. intros H st. by rewrite H. Qed.

Lemma keeps_ret {A} (a : A) : keeps R (mret a).
Proof. by apply keeps_unchanged. Qed.

Lemma keeps_raise {A} e : keeps R (raise e : View A).
Proof. by apply keeps_unchanged. Qed.

Lemma keeps_bind {A B} (m : View A) (k : A → View B) :
  keeps R m → (∀ a, keeps R (k a)) → keeps R (m ≫= k).
Proof.
  intros Hm Hk st. specialize (Hm st). unfold mbind, View_bind.
  destruct (m st) as [[a | e] st1]; simpl in *; [| done].
  by etrans; [| apply Hk].
Qed.

Lemma keeps_modify_state f : (∀ st, R st (f st)) → keeps R (modify_state f).
Proof. intros H st. apply H. Qed.

Lemma keeps_login_required view request :
  (∀ u, keeps R (view u request)) → keeps R (login_required view request).
Proof.
  intros H. unfold login_required. destruct (user request); [done |].
  apply keeps_ret.
Qed.

Lemma keeps_require_http_methods permitted view request :
  keeps R (view request) → keeps R (require_http_methods permitted view request).
Proof.
  intros H. unfold require_http_methods. case_decide; [done |]. apply keeps_ret.
Qed.

End Keeps.

#[global] Instance teams_kept_messages_grow_preorder :
  PreOrder teams_kept_messages_grow.
Proof.
  split.
  - by intros st.
  - intros st1 st2 st3 [Ht12 Hm12] [Ht23 Hm23]. split; [congruence |].
    by etrans.
Qed.

Lemma get_object_or_404_reads task_id st : (get_object_or_404 task_id st).2 = st.
Proof. unfold get_object_or_404. by destruct (Task_objects st !! task_id). Qed.

Lemma Task_team_reads task st : (Task_team task st).2 = st.
Proof.
  unfold Task_team. destruct (team_id task) as [k |]; [| done].
  by destruct (Team_objects st !! k).
Qed.

(** One step of the structural argument: peel a decorator, a bind or a
    branch, or close a leaf that reads or writes the store. *)
Ltac keeps_step :=
  match goal with
  | |- keeps _ (login_required _ _) =>
      apply keeps_login_required; try apply _; intros ?
  | |- keeps _ (require_http_methods _ _ _) =>
      apply keeps_require_http_methods; try apply _
  | |- keeps _ (_ ≫= _) => apply keeps_bind; try apply _; [| intros ?]
  | |- keeps _ (mret _) => apply keeps_ret; apply _
  | |- keeps _ (raise _) => apply keeps_raise; apply _
  | |- keeps _ (if ?b then _ else _) => destruct b
  | |- keeps _ (match ?x with _ => _ end) => destruct x
  | |- keeps _ (get_object_or_404 _) =>
      apply keeps_unchanged; [apply _ | apply get_object_or_404_reads]
  | |- keeps _ (Task_team _) =>
      apply keeps_unchanged; [apply _ | apply Task_team_reads]
  | |- keeps _ (Task_insert _) => intros ?; split; reflexivity
  | |- keeps _ (Comment_insert _) => intros ?; split; reflexivity
  | |- keeps _ (modify_state _) =>
      apply keeps_modify_state; intros ?; split; simpl;
      [reflexivity | first [reflexivity | apply prefix_app_r; reflexivity]]
  | |- keeps _ _ =>
      apply keeps_unchanged; [apply _ | intros ?; simpl; reflexivity]
  end.

(** X22. Whatever the request, no view of [tasks.py] changes a team, and none
    drops or reorders a message already queued for the session: the
    messages before the view are a prefix of the messages after it. *)
Theorem views_keep_teams_and_messages valid ccd eci today v request task_id st :
  teams_kept_messages_grow st
    (run_view valid ccd eci today v request task_id st).2.
Proof.
  revert st. change (keeps teams_kept_messages_grow
                       (run_view valid ccd eci today v request task_id)).
  destruct v; simpl;
    unfold task_create, task_edit, task_delete, tasks, completed_tasks,
      task_detail, task_accept, task_mark_completed, task_comment,
      task_detail_allowed, task_comment_allowed, QueryDict_getitem,
      Task_save, Task_assigned_to_add, Task_delete, messages_success,
      messages_error;
    repeat keeps_step.
Qed.
